(** * chat_pulse: the OAuth2 login state machine and the /guilds reconciliation

    A shallow embedding of [auth.js] (handleLogin, handleCallback),
    of the parts of [discord.js] that the /guilds route calls
    (getUserGuilds, getChannels) and of the /guilds and /callback routes of
    [server.js], followed by the properties of the specification that are
    about them.

    JavaScript values are kept dynamic (one inductive type of JSON-like
    values), remote HTTP answers and the random draw are inputs, the session
    object and the list of remote calls issued are threaded as state, and
    [return] / [throw] / [try ... catch] are the three completions of a small
    monad.  Strings are sequences of UTF-8 bytes.  The log lines
    ([console.log], [console.error]) are left out. *)

From Stdlib Require Import ZArith String Ascii List Bool Lia.
From Stdlib Require Import DecimalString DecimalPos DecimalN NArithRing.
From stdpp Require Import base list strings.
Import ListNotations.

Set Warnings "-register-all".

Local Open Scope string_scope.
Local Open Scope list_scope.
Local Open Scope Z_scope.

(** ** JavaScript values *)

Module Js.

(** The values that reach this program: what [JSON.parse] produces, what the
    query-string parser produces (strings, arrays, objects) and [undefined]
    for an absent property.  [JNum] holds the integral Numbers; an object is
    the list of its own properties, first binding of a key first. *)
Inductive value : Type :=
| JUndefined
| JNull
| JBool (b : bool)
| JNum (n : Z)
| JStr (s : string)
| JArr (items : list value)
| JObj (fields : list (string * value)).

(** A thrown [Error]: its constructor name and its message. *)
Record exn : Type := JsError { exn_name : string; message : string }.

Definition TypeError (msg : string) : exn := JsError "TypeError" msg.
Definition SyntaxError (msg : string) : exn := JsError "SyntaxError" msg.

(** ToBoolean. *)
Definition truthy (v : value) : bool :=
  match v with
  | JUndefined | JNull => false
  | JBool b => b
  | JNum n => negb (n =? 0)
  | JStr s => negb (s =? "")%string
  | JArr _ | JObj _ => true
  end.

(** [a || b]. *)
Definition or_else (a b : value) : value := if truthy a then a else b.

(** [a === b].  Arrays and objects compare by identity; no comparison of this
    program has the same object on both sides (one side is a literal, or
    the two sides come from the query string and from the session store),
    so an object operand makes the comparison false. *)
Definition strict_eq (a b : value) : bool :=
  match a, b with
  | JUndefined, JUndefined => true
  | JNull, JNull => true
  | JBool x, JBool y => Bool.eqb x y
  | JNum x, JNum y => (x =? y)%Z
  | JStr x, JStr y => (x =? y)%string
  | _, _ => false
  end.

Fixpoint lookup_field (k : string) (fs : list (string * value)) : value :=
  match fs with
  | [] => JUndefined
  | (k', v) :: rest => if (k' =? k)%string then v else lookup_field k rest
  end.

(** [v.k] for the property names this program reads (none of them is an
    array index or a method): reading a property of [undefined] or [null]
    throws, a primitive or an array only has [length]. *)
Definition get_prop (v : value) (k : string) : exn + value :=
  match v with
  | JUndefined =>
      inl (TypeError ("Cannot read properties of undefined (reading '" +:+ k +:+ "')"))
  | JNull =>
      inl (TypeError ("Cannot read properties of null (reading '" +:+ k +:+ "')"))
  | JObj fs => inr (lookup_field k fs)
  | JArr items =>
      inr (if (k =? "length")%string then JNum (Z.of_nat (List.length items))
           else JUndefined)
  | JStr s =>
      inr (if (k =? "length")%string then JNum (Z.of_nat (String.length s))
           else JUndefined)
  | JBool _ | JNum _ => inr JUndefined
  end.

(** *** BigInt conversion *)

(** The white space and line terminators of the ASCII range. *)
Definition is_space (c : ascii) : bool :=
  let n := nat_of_ascii c in
  ((9 <=? n) && (n <=? 13))%nat || (n =? 32)%nat.

(** The string without its leading white space and line terminators
    (StrWhiteSpaceChar), as code points in UTF-8: U+0009 to U+000D, U+0020,
    U+00A0, U+1680, U+2000 to U+200A, U+2028, U+2029, U+202F, U+205F, U+3000
    and U+FEFF. *)
Fixpoint trim_left (s : string) : string :=
  match s with
  | String c rest =>
      if is_space c then trim_left rest
      else
        match s with
        | String "194" (String "160" r) => trim_left r
        | String "225" (String "154" (String "128" r)) => trim_left r
        | String "226" (String "128" (String c3 r)) =>
            let n := nat_of_ascii c3 in
            if ((128 <=? n) && (n <=? 138) || (n =? 168) || (n =? 169)
                || (n =? 175))%nat
            then trim_left r else s
        | String "226" (String "129" (String "159" r)) => trim_left r
        | String "227" (String "128" (String "128" r)) => trim_left r
        | String "239" (String "187" (String "191" r)) => trim_left r
        | _ => s
        end
  | EmptyString => EmptyString
  end.

(** The string is white space from end to end. *)
Definition blank (s : string) : bool :=
  match trim_left s with
  | EmptyString => true
  | String _ _ => false
  end.

(** The string without its trailing white space: what is white space up to
    the end is dropped. *)
Fixpoint trim_right (s : string) : string :=
  match s with
  | EmptyString => EmptyString
  | String c rest =>
      if blank s then EmptyString else String c (trim_right rest)
  end.

Definition trim (s : string) : string := trim_right (trim_left s).

(** The value of a digit in a radix up to 16, if it is one. *)
Definition digit_value (radix : Z) (c : ascii) : option Z :=
  let n := Z.of_nat (nat_of_ascii c) in
  let d :=
    if (48 <=? n) && (n <=? 57) then Some (n - 48)
    else if (97 <=? n) && (n <=? 102) then Some (n - 87)
    else if (65 <=? n) && (n <=? 70) then Some (n - 55)
    else None in
  match d with
  | Some x => if x <? radix then Some x else None
  | None => None
  end.

Fixpoint digits_from (radix : Z) (acc : Z) (s : string) : option Z :=
  match s with
  | EmptyString => Some acc
  | String c rest =>
      match digit_value radix c with
      | Some d => digits_from radix (radix * acc + d) rest
      | None => None
      end
  end.

(** One or more digits of the radix. *)
Definition digits (radix : Z) (s : string) : option Z :=
  match s with
  | EmptyString => None
  | _ => digits_from radix 0 s
  end.

(** StringToBigInt: surrounding white space is dropped; the empty string is
    0; a literal is [0x], [0o] or [0b] followed by digits of that radix, or
    decimal digits with an optional sign.  Anything else is no BigInt. *)
Definition string_to_bigint (s : string) : option Z :=
  match trim s with
  | EmptyString => Some 0
  | String "0" (String ("x" | "X") rest) => digits 16 rest
  | String "0" (String ("o" | "O") rest) => digits 8 rest
  | String "0" (String ("b" | "B") rest) => digits 2 rest
  | String "+" rest => digits 10 rest
  | String "-" rest => option_map Z.opp (digits 10 rest)
  | t => digits 10 t
  end.

(** *** Numbers as strings *)

(** The decimal digits of a natural number. *)
Definition digits_of (n : Z) : string :=
  DecimalString.NilZero.string_of_uint (N.to_uint (Z.to_N n)).

(** Among the multiples of a power of ten that round to the Number [v], the
    one nearest to [v], for the highest power that has one: the powers are
    tried from [10 ^ (fuel - 1)] down.  [low2] and [high2] are twice the
    bounds of what rounds to [v], which belong to it when [closed]. *)
Fixpoint shortest_from (fuel : nat) (v low2 high2 : Z) (closed : bool) : Z :=
  match fuel with
  | O => v
  | S j =>
      let p := 10 ^ Z.of_nat j in
      let lo := v / p * p in
      let hi := lo + p in
      let rounds_to_v w :=
        (0 <? w)
        && (if closed then (low2 <=? 2 * w) && (2 * w <=? high2)
            else (low2 <? 2 * w) && (2 * w <? high2)) in
      match rounds_to_v lo, rounds_to_v hi with
      | true, true =>
          if v - lo <? hi - v then lo
          else if hi - v <? v - lo then hi
          else if Z.even (lo / p) then lo else hi
      | true, false => lo
      | false, true => hi
      | false, false => shortest_from j v low2 high2 closed
      end
  end.

(** The integer that the digits of Number::toString denote for a positive
    integral Number [v]: [v] itself up to 2^53, where every integer is a
    Number, and beyond that the integer with the fewest significant digits
    that rounds to [v] (to nearest, ties to the even significand). *)
Definition shortest (v : Z) : Z :=
  if v <=? 2 ^ 53 then v
  else
    let ulp := 2 ^ (Z.log2 v - 52) in
    let significand := v / ulp in
    let below := if significand =? 2 ^ 52 then ulp / 2 else ulp in
    shortest_from 330 v (2 * v - below) (2 * v + ulp) (Z.even significand).

Fixpoint strip_zeros (s : string) : string :=
  match s with
  | EmptyString => EmptyString
  | String c rest =>
      match strip_zeros rest with
      | EmptyString =>
          if Ascii.eqb c "0" then EmptyString else String c EmptyString
      | t => String c t
      end
  end.

(** [String(n)] for an integral Number: its digits below 10^21, and from
    there on the significant digits with an exponent. *)
Definition number_to_string (n : Z) : string :=
  if n =? 0 then "0"
  else
    let w := shortest (Z.abs n) in
    let ds := digits_of w in
    (if n <? 0 then "-" else "")
    +:+ (if w <? 10 ^ 21 then ds
         else
           let exponent := "e+" +:+ digits_of (Z.of_nat (String.length ds) - 1) in
           match strip_zeros ds with
           | String d EmptyString => String d exponent
           | String d more => String d ("." +:+ more +:+ exponent)
           | EmptyString => ds
           end).

(** An object has an own property of the given name. *)
Definition has_own (k : string) (fields : list (string * value)) : bool :=
  existsb (fun kv => (fst kv =? k)%string) fields.

(** [String(v)] and the string of [v] as a primitive.  An array is the join
    of its elements with commas, where [null] and [undefined] count as
    empty.  An object is ["[object Object]"] by the method it inherits; an
    own property [toString] hides that method and, as no value here is a
    function, leaves the object without a primitive. *)
Fixpoint to_string (v : value) : exn + string :=
  match v with
  | JUndefined => inr "undefined"
  | JNull => inr "null"
  | JBool b => inr (if b then "true" else "false")
  | JNum n => inr (number_to_string n)
  | JStr s => inr s
  | JArr items =>
      (fix join (first : bool) (items : list value) : exn + string :=
         match items with
         | [] => inr ""
         | x :: rest =>
             match (match x with
                    | JUndefined | JNull => inr ""
                    | _ => to_string x
                    end) with
             | inl e => inl e
             | inr s =>
                 match join false rest with
                 | inl e => inl e
                 | inr t => inr ((if first then "" else ",") +:+ s +:+ t)
                 end
             end
         end) true items
  | JObj fields =>
      if has_own "toString" fields
      then inl (TypeError "Cannot convert object to primitive value")
      else inr "[object Object]"
  end.

(** [BigInt(v)]: a Number and a boolean convert by value, a string through
    StringToBigInt, an array or object through its string. *)
Definition BigInt (v : value) : exn + Z :=
  let of_string s :=
    match string_to_bigint s with
    | Some n => inr n
    | None => inl (SyntaxError ("Cannot convert " +:+ s +:+ " to a BigInt"))
    end in
  match v with
  | JUndefined => inl (TypeError "Cannot convert undefined to a BigInt")
  | JNull => inl (TypeError "Cannot convert null to a BigInt")
  | JBool b => inr (if b then 1 else 0)
  | JNum n => inr n
  | JStr s => of_string s
  | JArr _ | JObj _ =>
      match to_string v with
      | inl e => inl e
      | inr s => of_string s
      end
  end.

End Js.
Import Js.

(** ** Requests, responses and the handler monad *)

(** What a handler sends back: [res.redirect(url)] (status 302),
    [res.status(n).send(text)] and [res.status(n).json(object)]. *)
Inductive Response : Type :=
| Redirect (location : string)
| Send (status : Z) (body : string)
| SendJson (status : Z) (body : value).

Definition http_status (r : Response) : Z :=
  match r with
  | Redirect _ => 302
  | Send status _ => status
  | SendJson status _ => status
  end.

(** The three properties of [req.session] that the program uses. *)
Record Session : Type := mkSession {
  oauthState : value;
  accessToken : value;
  user : value;
}.

(** The session that express-session creates on first contact. *)
Definition new_session : Session :=
  {| oauthState := JUndefined; accessToken := JUndefined; user := JUndefined |}.

(** How a promise settles. *)
Inductive settled (A : Type) : Type :=
| Resolved (a : A)
| Rejected (e : exn).
Arguments Resolved {A} a.
Arguments Rejected {A} e.

(** The part of a [fetch] response that is read: [ok], [statusText] and the
    promises of [text()] and [json()]. *)
Record HttpResponse : Type := mkHttpResponse {
  ok : bool;
  statusText : string;
  text : settled string;
  json : settled value;
}.

(** The remote calls of [auth.js] and [discord.js]. *)
Inductive RemoteCall : Type :=
| PostToken (client_id client_secret : string) (code : value) (redirect_uri : string)
| GetIdentity (bearer : value)
| GetUserGuilds (bearer : value)
| GetGuildChannels (bot_token : string) (guild_id : value).

(** The remote side: the answer to the [n]-th call of a request (counted from
    0), which may depend on what is asked. *)
Definition Remote : Type := nat -> RemoteCall -> settled HttpResponse.

(** The state a handler runs in: [req.session], which is missing when no
    session middleware ran, and the remote calls issued so far. *)
Record State : Type := mkState {
  session : option Session;
  calls : list RemoteCall;
}.

(** How a block of statements completes. *)
Inductive completion (A : Type) : Type :=
| Normal (a : A)
| Return (r : Response)
| Throw (e : exn).
Arguments Normal {A} a.
Arguments Return {A} r.
Arguments Throw {A} e.

Definition M (A : Type) : Type := State -> completion A * State.

Definition pure {A} (a : A) : M A := fun st => (Normal a, st).

Definition bind {A B} (m : M A) (k : A -> M B) : M B :=
  fun st =>
    match m st with
    | (Normal a, st') => k a st'
    | (Return r, st') => (Return r, st')
    | (Throw e, st') => (Throw e, st')
    end.

Declare Scope js_scope.
Delimit Scope js_scope with js.
Notation "x <- m ;; k" := (bind m (fun x => k))
  (at level 100, m at next level, right associativity) : js_scope.
Notation "m ;; k" := (bind m (fun _ => k))
  (at level 100, right associativity) : js_scope.
Local Open Scope js_scope.

(** [return res...] *)
Definition respond {A} (r : Response) : M A := fun st => (Return r, st).

Definition throw {A} (e : exn) : M A := fun st => (Throw e, st).

(** [try { body } catch (error) { handler }] *)
Definition try_catch {A} (body : M A) (handler : exn -> M A) : M A :=
  fun st =>
    match body st with
    | (Throw e, st') => handler e st'
    | other => other
    end.

(** A step that may throw. *)
Definition lift {A} (x : exn + A) : M A :=
  match x with
  | inr a => pure a
  | inl e => throw e
  end.

(** [await p] *)
Definition await {A} (p : settled A) : M A :=
  match p with
  | Resolved a => pure a
  | Rejected e => throw e
  end.

(** [await fetch(...)]: the call is issued, then its promise is awaited. *)
Definition fetch (remote : Remote) (call : RemoteCall) : M HttpResponse :=
  fun st =>
    let st' := {| session := session st; calls := calls st ++ [call] |} in
    await (remote (List.length (calls st)) call) st'.

(** [!!req.session] *)
Definition session_exists : M bool :=
  fun st => (Normal (match session st with Some _ => true | None => false end), st).

(** [req.session.p]: throws when [req.session] is undefined (the message is
    kept without the name of the property). *)
Definition session_get (p : Session -> value) : M value :=
  fun st =>
    match session st with
    | Some s => (Normal (p s), st)
    | None =>
        (Throw (TypeError "Cannot read properties of undefined"), st)
    end.

(** [req.session.p = v]: throws when [req.session] is undefined. *)
Definition session_set (update : Session -> Session) : M unit :=
  fun st =>
    match session st with
    | Some s => (Normal tt, {| session := Some (update s); calls := calls st |})
    | None =>
        (Throw (TypeError "Cannot set properties of undefined"), st)
    end.

Definition set_oauthState (v : value) (s : Session) : Session :=
  {| oauthState := v; accessToken := accessToken s; user := user s |}.
Definition set_accessToken (v : value) (s : Session) : Session :=
  {| oauthState := oauthState s; accessToken := v; user := user s |}.
Definition set_user (v : value) (s : Session) : Session :=
  {| oauthState := oauthState s; accessToken := accessToken s; user := v |}.

(** What the browser gets from a handler run: the response it sent, an
    exception that left the handler, or nothing. *)
Inductive Outcome : Type :=
| Responded (r : Response)
| Unhandled (e : exn)
| NoReply.

Record Run : Type := mkRun {
  outcome : Outcome;
  session_after : option Session;
  calls_made : list RemoteCall;
}.

Definition run {A} (m : M A) (s : option Session) : Run :=
  match m {| session := s; calls := [] |} with
  | (c, st) =>
      {| outcome := match c with
                    | Return r => Responded r
                    | Throw e => Unhandled e
                    | Normal _ => NoReply
                    end;
         session_after := session st;
         calls_made := calls st |}
  end.

(** ** auth.js *)

Module Auth.

(** [s.substring(n)] *)
Fixpoint substring_from (n : nat) (s : string) : string :=
  match n, s with
  | O, _ => s
  | S n', String _ rest => substring_from n' rest
  | S _, EmptyString => EmptyString
  end.

(** The characters [encodeURIComponent] leaves as they are. *)
Definition unreserved (c : ascii) : bool :=
  let n := nat_of_ascii c in
  (((65 <=? n) && (n <=? 90)) || ((97 <=? n) && (n <=? 122))
   || ((48 <=? n) && (n <=? 57))
   || existsb (Nat.eqb n) [45; 95; 46; 33; 126; 42; 39; 40; 41])%nat.

Definition hex_digit (n : nat) : ascii :=
  ascii_of_nat (if (n <? 10)%nat then 48 + n else 55 + n)%nat.

(** [encodeURIComponent(s)], on the UTF-8 bytes of [s]. *)
Fixpoint encodeURIComponent (s : string) : string :=
  match s with
  | EmptyString => EmptyString
  | String c rest =>
      if unreserved c then String c (encodeURIComponent rest)
      else
        let n := nat_of_ascii c in
        String "%" (String (hex_digit (n / 16)) (String (hex_digit (n mod 16))
          (encodeURIComponent rest)))
  end.

Definition dashboard : string := "/dashboard.html".

Definition authUrl (clientId redirectUri state : string) : string :=
  "https://discord.com/oauth2/authorize?client_id=" +:+ clientId
  +:+ "&redirect_uri=" +:+ encodeURIComponent redirectUri
  +:+ "&response_type=code&scope=" +:+ encodeURIComponent "identify guilds"
  +:+ "&state=" +:+ state.

(** [handleLogin(req, res, clientId, redirectUri)].  [random36] is the string
    that [Math.random().toString(36)] evaluates to in this call and
    [save_error] the error that [req.session.save] passes to its callback,
    if any. *)
Definition handleLogin (random36 : string) (save_error : option exn)
    (clientId redirectUri : string) : M unit :=
  has_session <- session_exists ;;
  token <- (if has_session : bool then session_get accessToken else pure JUndefined) ;;
  if has_session && truthy token then respond (Redirect dashboard)
  else
    let state := substring_from 2 random36 in
    session_set (set_oauthState (JStr state)) ;;
    match save_error with
    | Some err => respond (Send 500 "Failed to initialize login")
    | None => respond (Redirect (authUrl clientId redirectUri state))
    end.

(** [req.query], destructured: an absent parameter is [undefined]. *)
Record Query : Type := mkQuery { code : value; state : value }.

Definition no_state : string :=
  "Login failed. Please try again. (no state received)".
Definition session_expired : string :=
  "Login failed. Please try again. (session expired - try logging in again)".
Definition invalid_state : string :=
  "Login failed. Please try again. (invalid state)".
Definition missing_code : string :=
  "Login failed. Please try again. (missing code)".
Definition token_error : string :=
  "Login failed. Please try again. (token error)".
Definition user_fetch_error : string :=
  "Login failed. Please try again. (user fetch error)".
Definition callback_error : string :=
  "Login failed. Please try again. (callback error)".

(** The body of the [try] block of [handleCallback]. *)
Definition exchange (remote : Remote) (clientId clientSecret redirectUri : string)
    (code : value) : M unit :=
  tokenResponse <- fetch remote (PostToken clientId clientSecret code redirectUri) ;;
  if negb (ok tokenResponse) then
    errorText <- await (text tokenResponse) ;;
    respond (Send 400 token_error)
  else
    tokenData <- await (json tokenResponse) ;;
    access_token <- lift (get_prop tokenData "access_token") ;;
    session_set (set_accessToken access_token) ;;
    userResponse <- fetch remote (GetIdentity access_token) ;;
    if negb (ok userResponse) then
      userError <- await (text userResponse) ;;
      respond (Send 400 user_fetch_error)
    else
      userData <- await (json userResponse) ;;
      id <- lift (get_prop userData "id") ;;
      username <- lift (get_prop userData "username") ;;
      avatar <- lift (get_prop userData "avatar") ;;
      discriminator <- lift (get_prop userData "discriminator") ;;
      session_set (set_user (JObj [("id", id); ("username", username);
                                   ("avatar", avatar);
                                   ("discriminator", discriminator)])) ;;
      session_set (set_oauthState JNull) ;;
      respond (Redirect dashboard).

(** [handleCallback(req, res, clientId, clientSecret, redirectUri)] *)
Definition handleCallback (remote : Remote)
    (clientId clientSecret redirectUri : string) (query : Query) : M unit :=
  let code := code query in
  let state := state query in
  logged <- session_get oauthState ;;
  if negb (truthy state) then respond (Send 400 no_state)
  else
    has_session <- session_exists ;;
    stored <- (if has_session : bool then session_get oauthState else pure JUndefined) ;;
    if negb has_session || negb (truthy stored) then
      respond (Send 400 session_expired)
    else
      stored <- session_get oauthState ;;
      if negb (strict_eq state stored) then respond (Send 400 invalid_state)
      else if negb (truthy code) then respond (Send 400 missing_code)
      else
        try_catch (exchange remote clientId clientSecret redirectUri code)
          (fun error => respond (Send 400 callback_error)).

End Auth.

(** ** Numbers read from the query string *)

Module Num.

(** What the query-string parser puts in [req.query]: a string, an array
    (a repeated or bracketed key) or an object (a key with sub-keys). *)
Inductive qs_value : Type :=
| QStr (s : string)
| QArr (items : list qs_value)
| QObj (fields : list (string * qs_value)).

(** ToString of a query value: an array is the join of its elements with
    commas, an object is ["[object Object]"]. *)
Fixpoint to_string (v : qs_value) : string :=
  match v with
  | QStr s => s
  | QArr items => String.concat "," (map to_string items)
  | QObj _ => "[object Object]"
  end.

(** ToString of [req.query.k], which is [undefined] for an absent key. *)
Definition query_string (v : option qs_value) : string :=
  match v with
  | Some q => to_string q
  | None => "undefined"
  end.

(** The Numbers that [parseInt] returns.  An integer up to 2^53 in magnitude
    is a Number and is kept as it is; beyond that the Number is the rounded
    value (or an infinity) and only its sign is kept. *)
Inductive number : Type :=
| NaN
| Int (n : Z)
| Huge (negative : bool).

Definition to_number (n : Z) : number :=
  if Z.abs n <=? 2 ^ 53 then Int n else Huge (n <? 0).

(** ToBoolean of a Number. *)
Definition number_truthy (x : number) : bool :=
  match x with
  | NaN => false
  | Int n => negb (n =? 0)
  | Huge _ => true
  end.

(** [x || fallback] *)
Definition number_or (x fallback : number) : number :=
  if number_truthy x then x else fallback.

(** The string without its leading white space and line terminators, as code
    points in UTF-8: U+0009 to U+000D, U+0020, U+00A0, U+1680, U+2000 to
    U+200A, U+2028, U+2029, U+202F, U+205F, U+3000 and U+FEFF. *)
Fixpoint skip_spaces (s : string) : string :=
  match s with
  | String c rest =>
      if is_space c then skip_spaces rest
      else
        match s with
        | String "194" (String "160" r) => skip_spaces r
        | String "225" (String "154" (String "128" r)) => skip_spaces r
        | String "226" (String "128" (String c3 r)) =>
            let n := nat_of_ascii c3 in
            if ((128 <=? n) && (n <=? 138) || (n =? 168) || (n =? 169)
                || (n =? 175))%nat
            then skip_spaces r else s
        | String "226" (String "129" (String "159" r)) => skip_spaces r
        | String "227" (String "128" (String "128" r)) => skip_spaces r
        | String "239" (String "187" (String "191" r)) => skip_spaces r
        | _ => s
        end
  | EmptyString => EmptyString
  end.

(** The value of the longest run of digits of the radix at the start of the
    string, added to [acc] shifted. *)
Fixpoint scan_digits (radix : Z) (acc : Z) (s : string) : Z :=
  match s with
  | String c rest =>
      match digit_value radix c with
      | Some d => scan_digits radix (radix * acc + d) rest
      | None => acc
      end
  | EmptyString => acc
  end.

(** The digits of [parseInt]: none is [NaN]. *)
Definition leading_integer (radix : Z) (s : string) : option Z :=
  match s with
  | String c _ =>
      match digit_value radix c with
      | Some _ => Some (scan_digits radix 0 s)
      | None => None
      end
  | EmptyString => None
  end.

(** [parseInt(s)] without radix: leading white space is dropped, then a sign,
    then a [0x] or [0X] that selects radix 16 instead of 10, and the longest
    run of digits is the value; what follows it is ignored. *)
Definition parseInt (s : string) : number :=
  let s1 := skip_spaces s in
  let '(negative, s2) :=
    match s1 with
    | String "-" r => (true, r)
    | String "+" r => (false, r)
    | _ => (false, s1)
    end in
  let '(radix, s3) :=
    match s2 with
    | String "0" (String ("x" | "X") r) => (16, r)
    | _ => (10, s2)
    end in
  match leading_integer radix s3 with
  | Some m => to_number (if negative : bool then - m else m)
  | None => NaN
  end.

End Num.

(** ** discord.js *)

Module Discord.

(** [array.filter(callback)] with a callback that may throw: the first
    exception ends the traversal; [filter] is no function of a value that is
    not an array. *)
Fixpoint filter_items (callback : value -> exn + bool) (items : list value)
    : exn + list value :=
  match items with
  | [] => inr []
  | x :: rest =>
      match callback x with
      | inl e => inl e
      | inr keep =>
          match filter_items callback rest with
          | inl e => inl e
          | inr kept => inr (if keep then x :: kept else kept)
          end
      end
  end.

Definition array_filter (v : value) (callback : value -> exn + bool)
    : exn + list value :=
  match v with
  | JArr items => filter_items callback items
  | JUndefined =>
      inl (TypeError "Cannot read properties of undefined (reading 'filter')")
  | JNull => inl (TypeError "Cannot read properties of null (reading 'filter')")
  | _ => inl (TypeError "filter is not a function")
  end.

Definition Error (msg : string) : exn := JsError "Error" msg.

(** [getUserGuilds(accessToken)] *)
Definition getUserGuilds (remote : Remote) (accessToken : value) : M value :=
  response <- fetch remote (GetUserGuilds accessToken) ;;
  if negb (ok response) then
    throw (Error ("Failed to fetch user guilds: " +:+ statusText response))
  else await (json response).

(** [(channel) => channel.type === 0] *)
Definition is_text_channel (channel : value) : exn + bool :=
  match get_prop channel "type" with
  | inl e => inl e
  | inr t => inr (strict_eq t (JNum 0))
  end.

(** [getChannels(botToken, guildId)] *)
Definition getChannels (remote : Remote) (botToken : string) (guildId : value)
    : M (list value) :=
  response <- fetch remote (GetGuildChannels botToken guildId) ;;
  if negb (ok response) then
    throw (Error ("Failed to fetch channels: " +:+ statusText response))
  else
    allChannels <- await (json response) ;;
    lift (array_filter allChannels is_text_channel).

(** [getUserInfo(accessToken)] *)
Definition getUserInfo (remote : Remote) (accessToken : value) : M value :=
  response <- fetch remote (GetIdentity accessToken) ;;
  if negb (ok response) then
    throw (Error ("Failed to fetch user info: " +:+ statusText response))
  else await (json response).

End Discord.

(** ** discord.js: the message calls *)

Module Messages.

(** The remote calls of [getMessages] and [sendMessage]. *)
Inductive MessageCall : Type :=
| GetMessages (botToken : string) (channelId : value) (limit : Num.number)
| PostMessage (botToken : string) (channelId : value) (content : value).

(** A [fetch] response of which [status] is read too. *)
Record MessageResponse : Type := mkMessageResponse {
  response : HttpResponse;
  status : Z;
}.

Definition MessageRemote : Type := MessageCall -> settled MessageResponse.

(** A block of statements that issues message calls: the calls issued so far
    are threaded, the session is not touched. *)
Definition T (A : Type) : Type :=
  list MessageCall -> completion A * list MessageCall.

Definition unit_T {A} (a : A) : T A := fun log => (Normal a, log).

Definition bind_T {A B} (m : T A) (k : A -> T B) : T B :=
  fun log =>
    match m log with
    | (Normal a, log') => k a log'
    | (Return r, log') => (Return r, log')
    | (Throw e, log') => (Throw e, log')
    end.

Declare Scope trace_scope.
Delimit Scope trace_scope with trace.
Notation "x <- m ;; k" := (bind_T m (fun x => k))
  (at level 100, m at next level, right associativity) : trace_scope.
Local Open Scope trace_scope.

Definition respond_T {A} (r : Response) : T A := fun log => (Return r, log).

Definition throw_T {A} (e : exn) : T A := fun log => (Throw e, log).

Definition try_catch_T {A} (body : T A) (handler : exn -> T A) : T A :=
  fun log =>
    match body log with
    | (Throw e, log') => handler e log'
    | other => other
    end.

Definition lift_T {A} (x : exn + A) : T A :=
  match x with
  | inr a => unit_T a
  | inl e => throw_T e
  end.

Definition await_T {A} (p : settled A) : T A :=
  match p with
  | Resolved a => unit_T a
  | Rejected e => throw_T e
  end.

Definition fetch_T (remote : MessageRemote) (call : MessageCall)
    : T MessageResponse :=
  fun log => await_T (remote call) (log ++ [call]).

(** [getMessages(botToken, channelId, limit)] *)
Definition getMessages (remote : MessageRemote) (botToken : string)
    (channelId : value) (limit : Num.number) : T value :=
  reply <- fetch_T remote (GetMessages botToken channelId limit) ;;
  if negb (ok (response reply)) then
    throw_T (Discord.Error ("Failed to fetch messages: "
                            +:+ statusText (response reply)))
  else await_T (json (response reply)).

(** The decimal digits of a status code. *)
Definition status_digits (n : Z) : string :=
  DecimalString.NilZero.string_of_int (Z.to_int n).

(** [sendMessage(botToken, channelId, content)] *)
Definition sendMessage (remote : MessageRemote) (botToken : string)
    (channelId content : value) : T value :=
  reply <- fetch_T remote (PostMessage botToken channelId content) ;;
  if negb (ok (response reply)) then
    errorText <- await_T (text (response reply)) ;;
    throw_T (Discord.Error ("Failed to send message: "
                            +:+ status_digits (status reply) +:+ " "
                            +:+ errorText))
  else await_T (json (response reply)).

End Messages.

(** ** server.js *)

Module Server.

(** The configuration read from the environment at start-up. *)
Record Config : Type := mkConfig {
  DISCORD_CLIENT_ID : string;
  DISCORD_CLIENT_SECRET : string;
  BOT_TOKEN : string;
  DISCORD_REDIRECT_URI : string;
}.

(** [requireAuth]: the route runs only on a session with an access token. *)
Definition requireAuth (next : M unit) : M unit :=
  token <- session_get accessToken ;;
  if negb (truthy token) then respond (Redirect "/") else next.

Definition MANAGE_GUILD_PERMISSION : Z := 0x20.

(** [(permissions & BigInt(MANAGE_GUILD_PERMISSION)) !== 0n] on BigInts,
    which have no width. *)
Definition hasPermission (permissions mask : Z) : bool :=
  negb (Z.land permissions mask =? 0).

(** The callback of the permission filter, without the line that it logs. *)
Definition has_manage_guild (guild : value) : exn + bool :=
  match get_prop guild "permissions" with
  | inl e => inl e
  | inr p =>
      match BigInt (or_else p (JStr "0")) with
      | inl e => inl e
      | inr permissions =>
          match BigInt (JNum MANAGE_GUILD_PERMISSION) with
          | inl e => inl e
          | inr mask => inr (hasPermission permissions mask)
          end
      end
  end.

(** The object pushed for a guild that passed the probe. *)
Definition guild_view (id name icon owner : value) : value :=
  JObj [("id", id); ("name", name); ("icon", icon); ("owner", owner)].

(** One turn of the probe loop: the [try] pushes the view of the guild when
    [getChannels] returns, the [catch] only logs the guild and the error. *)
Definition probe (remote : Remote) (cfg : Config) (guild : value)
    (validGuilds : list value) : M (list value) :=
  try_catch
    (id <- lift (get_prop guild "id") ;;
     channels <- Discord.getChannels remote (BOT_TOKEN cfg) id ;;
     name <- lift (get_prop guild "name") ;;
     icon <- lift (get_prop guild "icon") ;;
     owner <- lift (get_prop guild "owner") ;;
     pure (validGuilds ++ [guild_view id name icon owner]))
    (fun error =>
       name <- lift (get_prop guild "name") ;;
       id <- lift (get_prop guild "id") ;;
       pure validGuilds).

(** [for (const guild of guildsWithPermission) { ... }] *)
Fixpoint probe_all (remote : Remote) (cfg : Config) (guilds : list value)
    (validGuilds : list value) : M (list value) :=
  match guilds with
  | [] => pure validGuilds
  | guild :: rest =>
      validGuilds' <- probe remote cfg guild validGuilds ;;
      probe_all remote cfg rest validGuilds'
  end.

(** The [debug] texts that tell the three empty answers apart, under the
    names the specification gives to the three reasons. *)
Definition NO_GUILDS : string := "User is not a member of any Discord servers".
Definition NO_MANAGE_PERMISSION : string :=
  "You don't have 'Manage Server' permission in any of your servers".
Definition BOT_NOT_INSTALLED : string :=
  "The bot is not installed in any of your servers. Please invite the bot to your server first.".

(** [{ success: true, guilds: [], debug }] *)
Definition no_guilds (debug : string) : Response :=
  SendJson 200 (JObj [("success", JBool true); ("guilds", JArr []);
                      ("debug", JStr debug)]).

(** [{ success: true, guilds: validGuilds }] *)
Definition guilds_found (validGuilds : list value) : Response :=
  SendJson 200 (JObj [("success", JBool true); ("guilds", JArr validGuilds)]).

Definition guilds_failed (error : exn) : Response :=
  SendJson 500 (JObj [("success", JBool false);
                      ("error", JStr "Failed to fetch guilds");
                      ("details", JStr (message error))]).

(** The handler of [GET /guilds], behind [requireAuth]. *)
Definition guilds (remote : Remote) (cfg : Config) : M unit :=
  requireAuth
    (try_catch
       (token <- session_get accessToken ;;
        userGuilds <- Discord.getUserGuilds remote token ;;
        length <- lift (get_prop userGuilds "length") ;;
        if strict_eq length (JNum 0) then respond (no_guilds NO_GUILDS)
        else
          guildsWithPermission <-
            lift (Discord.array_filter userGuilds has_manage_guild) ;;
          if (List.length guildsWithPermission =? 0)%nat then
            respond (no_guilds NO_MANAGE_PERMISSION)
          else
            validGuilds <- probe_all remote cfg guildsWithPermission [] ;;
            if (List.length validGuilds =? 0)%nat then
              respond (no_guilds BOT_NOT_INSTALLED)
            else respond (guilds_found validGuilds))
       (fun error => respond (guilds_failed error))).

(** The routes, as express runs them: the session middleware has put a
    session on the request before the handler starts. *)
Definition login_route (cfg : Config) (random36 : string)
    (save_error : option exn) (s : Session) : Run :=
  run (Auth.handleLogin random36 save_error (DISCORD_CLIENT_ID cfg)
         (DISCORD_REDIRECT_URI cfg)) (Some s).

Definition callback_route (cfg : Config) (remote : Remote) (query : Auth.Query)
    (s : Session) : Run :=
  run (Auth.handleCallback remote (DISCORD_CLIENT_ID cfg)
         (DISCORD_CLIENT_SECRET cfg) (DISCORD_REDIRECT_URI cfg) query) (Some s).

Definition guilds_route (cfg : Config) (remote : Remote) (s : Session) : Run :=
  run (guilds remote cfg) (Some s).

(** The handler of [GET /me], behind [requireAuth]. *)
Definition me (remote : Remote) : M unit :=
  requireAuth
    (try_catch
       (token <- session_get accessToken ;;
        userInfo <- Discord.getUserInfo remote token ;;
        respond (SendJson 200 (JObj [("success", JBool true);
                                     ("user", userInfo)])))
       (fun error =>
          respond (SendJson 500 (JObj [("success", JBool false);
                                       ("error", JStr "Failed to fetch user info")])))).

(** The handler of [GET /channels/:guildId], behind [requireAuth]. *)
Definition channels (remote : Remote) (cfg : Config) (guildId : string) : M unit :=
  requireAuth
    (try_catch
       (channels <- Discord.getChannels remote (BOT_TOKEN cfg) (JStr guildId) ;;
        respond (SendJson 200 (JObj [("success", JBool true);
                                     ("channels", JArr channels)])))
       (fun error =>
          respond (SendJson 500 (JObj [("success", JBool false);
                                       ("error", JStr "Failed to fetch channels")])))).

Definition me_route (remote : Remote) (s : Session) : Run :=
  run (me remote) (Some s).

Definition channels_route (cfg : Config) (remote : Remote) (guildId : string)
    (s : Session) : Run :=
  run (channels remote cfg guildId) (Some s).

(** What the browser gets from a route that relays messages, and the message
    calls that the route issued. *)
Record Relay : Type := mkRelay {
  reply : Outcome;
  sent : list Messages.MessageCall;
}.

Definition relay (handler : Messages.T unit) : Relay :=
  match handler [] with
  | (c, log) =>
      {| reply := match c with
                  | Return r => Responded r
                  | Throw e => Unhandled e
                  | Normal _ => NoReply
                  end;
         sent := log |}
  end.

(** A handler behind [requireAuth]: the middleware answers, or calls [next]
    and the handler runs. *)
Definition behind_requireAuth (s : Session) (handler : Messages.T unit) : Relay :=
  match outcome (run (requireAuth (pure tt)) (Some s)) with
  | NoReply => relay handler
  | answered => {| reply := answered; sent := [] |}
  end.

(** The handler of [GET /messages/:channelId]. *)
Definition messages (remote : Messages.MessageRemote) (cfg : Config)
    (channelId : string) (limit : option Num.qs_value) : Messages.T unit :=
  Messages.try_catch_T
    (let limit := Num.number_or (Num.parseInt (Num.query_string limit))
                    (Num.Int 10) in
     Messages.bind_T
       (Messages.getMessages remote (BOT_TOKEN cfg) (JStr channelId) limit)
       (fun messages =>
          Messages.respond_T
            (SendJson 200 (JObj [("success", JBool true);
                                 ("messages", messages)]))))
    (fun error =>
       Messages.respond_T
         (SendJson 500 (JObj [("success", JBool false);
                              ("error", JStr "Failed to fetch messages")]))).

(** [req.body] of [POST /send-message], destructured. *)
Record MessageBody : Type := mkMessageBody { channelId : value; message : value }.

Definition fields_required : Response :=
  SendJson 400 (JObj [("success", JBool false);
                      ("error", JStr "channelId and message are required")]).

Definition send_failed : Response :=
  SendJson 500 (JObj [("success", JBool false);
                      ("error", JStr "Failed to send message")]).

(** The handler of [POST /send-message]. *)
Definition send_message (remote : Messages.MessageRemote) (cfg : Config)
    (body : MessageBody) : Messages.T unit :=
  Messages.try_catch_T
    (if negb (truthy (channelId body)) || negb (truthy (message body)) then
       Messages.respond_T fields_required
     else
       Messages.bind_T
         (Messages.sendMessage remote (BOT_TOKEN cfg) (channelId body)
            (message body))
         (fun result =>
            Messages.bind_T (Messages.lift_T (get_prop result "id"))
              (fun id =>
                 Messages.respond_T
                   (SendJson 200 (JObj [("success", JBool true);
                                        ("messageId", id)])))))
    (fun error => Messages.respond_T send_failed).

Definition messages_route (cfg : Config) (remote : Messages.MessageRemote)
    (channelId : string) (limit : option Num.qs_value) (s : Session) : Relay :=
  behind_requireAuth s (messages remote cfg channelId limit).

Definition send_message_route (cfg : Config) (remote : Messages.MessageRemote)
    (body : MessageBody) (s : Session) : Relay :=
  behind_requireAuth s (send_message remote cfg body).

(** The handler of [GET /]: the dashboard for a session with an access token,
    the landing page [public/index.html] otherwise. *)
Definition root (s : Session) : Response + string :=
  if truthy (accessToken s) then inl (Redirect "/dashboard.html")
  else inr "public/index.html".

End Server.

(** ** Vocabulary of the properties *)

(** A property of the session is set: it holds something other than
    [undefined] and [null]. *)
Definition is_set (v : value) : bool :=
  match v with
  | JUndefined | JNull => false
  | _ => true
  end.

(** The validation of a callback passes: a state was received, one is
    stored, the two are the same string, and a code was received. *)
Definition validated (query : Auth.Query) (s : Session) : bool :=
  truthy (Auth.state query) && truthy (oauthState s)
  && strict_eq (Auth.state query) (oauthState s) && truthy (Auth.code query).

(** The run of the [try] block of the callback alone. *)
Definition exchange_run (cfg : Server.Config) (remote : Remote)
    (query : Auth.Query) (s : Session) : Run :=
  run (Auth.exchange remote (Server.DISCORD_CLIENT_ID cfg)
         (Server.DISCORD_CLIENT_SECRET cfg) (Server.DISCORD_REDIRECT_URI cfg)
         (Auth.code query)) (Some s).

(** The callback ended on its success path, with the redirect to the
    dashboard. *)
Definition logged_in (o : Outcome) : bool :=
  match o with
  | Responded (Redirect location) => (location =? Auth.dashboard)%string
  | _ => false
  end.

Definition is_token_exchange (c : RemoteCall) : bool :=
  match c with PostToken _ _ _ _ => true | _ => false end.

(** The token exchange of a callback. *)
Definition token_call (cfg : Server.Config) (query : Auth.Query) : RemoteCall :=
  PostToken (Server.DISCORD_CLIENT_ID cfg) (Server.DISCORD_CLIENT_SECRET cfg)
    (Auth.code query) (Server.DISCORD_REDIRECT_URI cfg).

(** The four ways in which a callback on a session ends: rejected by the
    validation, failed before a token was obtained, failed after the token
    was stored, or logged in. *)
Inductive callback_shape (cfg : Server.Config) (query : Auth.Query) (s : Session)
  : Run -> Prop :=
| shape_rejected text :
    In text [Auth.no_state; Auth.session_expired; Auth.invalid_state;
             Auth.missing_code] ->
    callback_shape cfg query s
      {| outcome := Responded (Send 400 text);
         session_after := Some s;
         calls_made := [] |}
| shape_no_token text :
    In text [Auth.token_error; Auth.callback_error] ->
    callback_shape cfg query s
      {| outcome := Responded (Send 400 text);
         session_after := Some s;
         calls_made := [token_call cfg query] |}
| shape_no_identity text token :
    In text [Auth.user_fetch_error; Auth.callback_error] ->
    callback_shape cfg query s
      {| outcome := Responded (Send 400 text);
         session_after := Some (set_accessToken token s);
         calls_made := [token_call cfg query; GetIdentity token] |}
| shape_logged_in token id username avatar discriminator :
    callback_shape cfg query s
      {| outcome := Responded (Redirect Auth.dashboard);
         session_after :=
           Some (set_oauthState JNull
                   (set_user (JObj [("id", id); ("username", username);
                                    ("avatar", avatar);
                                    ("discriminator", discriminator)])
                      (set_accessToken token s)));
         calls_made := [token_call cfg query; GetIdentity token] |}.


Fixpoint all_chars (p : ascii -> bool) (s : string) : bool :=
  match s with
  | EmptyString => true
  | String c rest => p c && all_chars p rest
  end.

Definition is_base36_digit (c : ascii) : bool :=
  let n := nat_of_ascii c in
  (((48 <=? n) && (n <=? 57)) || ((97 <=? n) && (n <=? 122)))%nat.

(** The strings that [Math.random().toString(36)] can evaluate to: a draw is
    in [0, 1), so it is ["0"] for the draw 0 and otherwise ["0."] followed by
    one or more base-36 digits. *)
Definition base36_draw (r : string) : bool :=
  match r with
  | String "0" EmptyString => true
  | String "0" (String "." ds) =>
      negb (ds =? "")%string && all_chars is_base36_digit ds
  | _ => false
  end.

(** The completion of a step that may throw. *)
Definition completed {A} (x : exn + A) : completion A :=
  match x with
  | inr a => Normal a
  | inl e => Throw e
  end.

(** The state once a remote call is issued. *)
Definition logged (call : RemoteCall) (st : State) : State :=
  {| session := session st; calls := calls st ++ [call] |}.

(** [v.k] where the read cannot throw. *)
Definition field (v : value) (k : string) : value :=
  match get_prop v k with
  | inr x => x
  | inl _ => JUndefined
  end.

(** What [getUserGuilds] makes of the answer to its call. *)
Definition guilds_in (answer : settled HttpResponse) : exn + value :=
  match answer with
  | Rejected e => inl e
  | Resolved response =>
      if ok response then
        match json response with
        | Resolved v => inr v
        | Rejected e => inl e
        end
      else inl (Discord.Error ("Failed to fetch user guilds: " +:+ statusText response))
  end.

(** What [getChannels] makes of the answer to its call. *)
Definition channels_in (answer : settled HttpResponse) : exn + list value :=
  match answer with
  | Rejected e => inl e
  | Resolved response =>
      if ok response then
        match json response with
        | Resolved v => Discord.array_filter v Discord.is_text_channel
        | Rejected e => inl e
        end
      else inl (Discord.Error ("Failed to fetch channels: " +:+ statusText response))
  end.

(** The probe of a guild, and whether it succeeds when it is the [n]-th
    remote call of the request: [getChannels] returns, with any list. *)
Definition probe_call (cfg : Server.Config) (guild : value) : RemoteCall :=
  GetGuildChannels (Server.BOT_TOKEN cfg) (field guild "id").

Definition probe_succeeds (cfg : Server.Config) (remote : Remote) (n : nat)
    (guild : value) : bool :=
  match channels_in (remote n (probe_call cfg guild)) with
  | inr _ => true
  | inl _ => false
  end.

(** The guilds of a list whose probes succeed, the first probe being the
    [n]-th remote call and each guild having one probe of its own. *)
Fixpoint installed (cfg : Server.Config) (remote : Remote) (n : nat)
    (guilds : list value) : list value :=
  match guilds with
  | [] => []
  | guild :: rest =>
      if probe_succeeds cfg remote n guild
      then guild :: installed cfg remote (S n) rest
      else installed cfg remote (S n) rest
  end.

(** The projection of a guild to [{id, name, icon, owner}]. *)
Definition view_of (guild : value) : value :=
  JObj [("id", field guild "id"); ("name", field guild "name");
        ("icon", field guild "icon"); ("owner", field guild "owner")].

(** The permissions of a guild as an integer, when they denote one: absent,
    [null], empty and zero permissions count as ["0"]; there are none when
    the guild is [null] or [undefined] or when [BigInt] refuses them. *)
Definition permissions_of (guild : value) : option Z :=
  match guild with
  | JUndefined | JNull => None
  | _ =>
      match BigInt (or_else (field guild "permissions") (JStr "0")) with
      | inr n => Some n
      | inl _ => None
      end
  end.

Definition convertible (guild : value) : bool :=
  match permissions_of guild with
  | Some _ => true
  | None => false
  end.

(** The guild carries the manage-server permission: bit 5 (0x20) of its
    permissions is set. *)
Definition manage_server (guild : value) : bool :=
  match permissions_of guild with
  | Some n => Z.testbit n 5
  | None => false
  end.







(** A guild object with the given [permissions] among its properties. *)
Definition guild_with (permissions : value) : value :=
  JObj [("id", JStr "41"); ("name", JStr "lounge"); ("icon", JNull);
        ("owner", JBool false); ("permissions", permissions)].

(** ** Vocabulary of the further properties *)

(** The guilds that [getUserGuilds] delivered, when it delivered an array. *)
Definition fetched_guilds (remote : Remote) (s : Session) : list value :=
  match guilds_in (remote 0%nat (GetUserGuilds (accessToken s))) with
  | inr (JArr gs) => gs
  | _ => []
  end.

(** The decimal digits of a natural number. *)
Definition decimal (n : N) : string :=
  DecimalString.NilZero.string_of_uint (N.to_uint n).

(** The string starts with something that ends a number: it is empty, or its
    first character is no decimal digit and no [x]. *)
Definition ends_number (s : string) : bool :=
  match s with
  | EmptyString => true
  | String c _ =>
      match digit_value 10 c with
      | Some _ => false
      | None => negb (Ascii.eqb c "x" || Ascii.eqb c "X")
      end
  end.

(** The body of a failed /messages request. *)
Definition messages_failed : Response :=
  SendJson 500 (JObj [("success", JBool false);
                      ("error", JStr "Failed to fetch messages")]).

(** [channel.type === 0], where the read cannot throw. *)
Definition text_channel (channel : value) : bool :=
  strict_eq (field channel "type") (JNum 0).

(** The bodies of the failed /channels and /me requests. *)
Definition channels_failed : Response :=
  SendJson 500 (JObj [("success", JBool false);
                      ("error", JStr "Failed to fetch channels")]).

Definition me_failed : Response :=
  SendJson 500 (JObj [("success", JBool false);
                      ("error", JStr "Failed to fetch user info")]).

(** The answer of a protected route to a request that [requireAuth] turns
    away. *)
Definition turned_away (s : Session) : Run :=
  {| outcome := Responded (Redirect "/"); session_after := Some s;
     calls_made := [] |}.

(** The value of a hexadecimal digit written in upper case. *)
Definition hex_value (c : ascii) : nat :=
  let n := nat_of_ascii c in
  if (n <? 58)%nat then (n - 48)%nat else (n - 55)%nat.

(** Percent-decoding, byte by byte: the inverse that a receiver applies to
    what [encodeURIComponent] produced. *)
Fixpoint percent_decode (s : string) : string :=
  match s with
  | EmptyString => EmptyString
  | String "%" (String hi (String lo rest)) =>
      String (ascii_of_nat (16 * hex_value hi + hex_value lo))
        (percent_decode rest)
  | String c rest => String c (percent_decode rest)
  end.

(** The characters that [encodeURIComponent] can produce. *)
Definition url_safe (c : ascii) : bool :=
  Auth.unreserved c || Ascii.eqb c "%".

(** ** Sample data *)

Module Samples.
Import Auth Server.

Definition cfg : Config :=
  {| DISCORD_CLIENT_ID := "1234"; DISCORD_CLIENT_SECRET := "shh";
     BOT_TOKEN := "bot"; DISCORD_REDIRECT_URI := "http://localhost:3000/callback" |}.

Definition answer (v : value) : settled HttpResponse :=
  Resolved {| ok := true; statusText := "OK"; text := Resolved ""; json := Resolved v |}.

Definition refusal (status : string) : settled HttpResponse :=
  Resolved {| ok := false; statusText := status; text := Resolved status;
              json := Rejected (SyntaxError "Unexpected token") |}.

(** The provider grants the token ["tok"] and knows its user. *)
Definition provider : Remote :=
  fun _ call =>
    match call with
    | PostToken _ _ _ _ => answer (JObj [("access_token", JStr "tok")])
    | GetIdentity _ =>
        answer (JObj [("id", JStr "7"); ("username", JStr "ann");
                      ("avatar", JNull); ("discriminator", JStr "0");
                      ("email", JStr "ann@example.org")])
    | _ => refusal "Not Found"
    end.

(** The provider grants the token and then refuses the identity call. *)
Definition provider_without_identity : Remote :=
  fun _ call =>
    match call with
    | PostToken _ _ _ _ => answer (JObj [("access_token", JStr "tok")])
    | _ => refusal "Unauthorized"
    end.

Definition waiting : Session :=
  {| oauthState := JStr "k3x9"; accessToken := JUndefined; user := JUndefined |}.

Definition guild (id permissions : string) : value :=
  JObj [("id", JStr id); ("name", JStr ("guild " +:+ id)); ("icon", JNull);
        ("owner", JBool false); ("permissions", JStr permissions)].

Definition guildA : value := guild "A" "32".
Definition guildB : value := guild "B" "0".
Definition guildC : value := guild "C" "40".
Definition guildD : value := guild "D" "4294967328".

(** The user is in four guilds; the bot is refused in guild C and finds a
    text channel and a voice channel in every other guild. *)
Definition discord : Remote :=
  fun _ call =>
    match call with
    | GetUserGuilds _ => answer (JArr [guildA; guildB; guildC; guildD])
    | GetGuildChannels _ (JStr "C") => refusal "Forbidden"
    | GetGuildChannels _ _ =>
        answer (JArr [JObj [("id", JStr "1"); ("type", JNum 0)];
                      JObj [("id", JStr "2"); ("type", JNum 2)]])
    | _ => refusal "Not Found"
    end.

Definition authenticated : Session :=
  {| oauthState := JNull; accessToken := JStr "tok";
     user := JObj [("id", JStr "7"); ("username", JStr "ann");
                   ("avatar", JNull); ("discriminator", JStr "0")] |}.

End Samples.

(** * Properties *)

(** ** Proof steps *)

Ltac unfold_handlers :=
  unfold Server.callback_route, Server.login_route, Server.guilds_route,
    Auth.handleCallback, Auth.handleLogin, Auth.exchange, run, bind,
    try_catch, session_get, session_set, session_exists, respond, fetch,
    pure, throw in *.

Ltac destruct_inner x :=
  lazymatch x with
  | context [match ?y with _ => _ end] => destruct_inner y
  | _ => destruct x eqn:?
  end.

Ltac split_cases :=
  repeat (cbn in *;
          match goal with
          | |- context [match ?x with _ => _ end] => destruct_inner x
          end).

(** ** Sample runs *)

(** [String(n)] writes the shortest digits that denote the Number. *)
Example number_to_string_samples :
  number_to_string 32 = "32"
  /\ number_to_string (- 7) = "-7"
  /\ number_to_string (2 ^ 53 + 2) = "9007199254740994"
  /\ number_to_string (2 ^ 62) = "4611686018427388000"
  /\ number_to_string (2 ^ 64) = "18446744073709552000"
  /\ number_to_string (10 ^ 21) = "1e+21"
  /\ number_to_string (2 ^ 70) = "1.1805916207174113e+21".
Proof. vm_compute. repeat split. Qed.

(** [BigInt] of what a permissions property can hold: white space of any
    kind around the digits is dropped (here a no-break space), a Number
    converts by value, an array through the string of its elements. *)
Example BigInt_samples :
  BigInt (JStr (String "194" (String "160" "32"))) = inr 32
  /\ BigInt (JStr ("32" +:+ String "226" (String "128" (String "168" " ")))) = inr 32
  /\ BigInt (JStr "3 2") = inl (SyntaxError "Cannot convert 3 2 to a BigInt")
  /\ BigInt (JNum (2 ^ 62)) = inr 4611686018427387904
  /\ BigInt (JArr [JNum (2 ^ 62)]) = inr 4611686018427388000
  /\ BigInt (JArr [JArr [JStr "32"]]) = inr 32
  /\ BigInt (JArr []) = inr 0
  /\ BigInt (JArr [JStr "a"; JStr "b"])
     = inl (SyntaxError "Cannot convert a,b to a BigInt")
  /\ BigInt (JStr "admin") = inl (SyntaxError "Cannot convert admin to a BigInt")
  /\ BigInt (JObj [("bits", JNum 32)])
     = inl (SyntaxError "Cannot convert [object Object] to a BigInt")
  /\ BigInt (JObj [("toString", JNull)])
     = inl (TypeError "Cannot convert object to primitive value")
  /\ BigInt JNull = inl (TypeError "Cannot convert null to a BigInt").
Proof. vm_compute. repeat split. Qed.

Example BigInt_hex : BigInt (JStr " 0x20 ") = inr 32.
Proof. reflexivity. Qed.

Example login_sample :
  Server.login_route Samples.cfg "0.k3x9" None new_session =
  {| outcome := Responded (Redirect
       "https://discord.com/oauth2/authorize?client_id=1234&redirect_uri=http%3A%2F%2Flocalhost%3A3000%2Fcallback&response_type=code&scope=identify%20guilds&state=k3x9");
     session_after := Some Samples.waiting;
     calls_made := [] |}.
Proof. reflexivity. Qed.

Example callback_sample :
  Server.callback_route Samples.cfg Samples.provider
    {| Auth.code := JStr "c0de"; Auth.state := JStr "k3x9" |} Samples.waiting =
  {| outcome := Responded (Redirect "/dashboard.html");
     session_after :=
       Some {| oauthState := JNull; accessToken := JStr "tok";
               user := JObj [("id", JStr "7"); ("username", JStr "ann");
                             ("avatar", JNull); ("discriminator", JStr "0")] |};
     calls_made :=
       [PostToken "1234" "shh" (JStr "c0de") "http://localhost:3000/callback";
        GetIdentity (JStr "tok")] |}.
Proof. reflexivity. Qed.

(** ** The login state machine *)

Lemma strict_eq_strings (a b : string) :
  a <> b -> strict_eq (JStr a) (JStr b) = false.
Proof. intros Hab. cbn. now apply String.eqb_neq. Qed.

(** C3: the callback validates in a fixed order, each failure answering 400
    with a message of its own and before any remote call: a missing state
    first, then a session without stored state, then a received state that is
    not the stored string, then a missing code; and a received state that
    differs from the stored one never leads to a token exchange. *)
Theorem callback_validation_order (cfg : Server.Config) (remote : Remote)
    (query : Auth.Query) (s : Session) :
  let r := Server.callback_route cfg remote query s in
  (truthy (Auth.state query) = false ->
     outcome r = Responded (Send 400 Auth.no_state) /\ calls_made r = [])
  /\ (truthy (Auth.state query) = true -> truthy (oauthState s) = false ->
     outcome r = Responded (Send 400 Auth.session_expired) /\ calls_made r = [])
  /\ (truthy (Auth.state query) = true -> truthy (oauthState s) = true ->
      strict_eq (Auth.state query) (oauthState s) = false ->
     outcome r = Responded (Send 400 Auth.invalid_state) /\ calls_made r = [])
  /\ (truthy (Auth.state query) = true -> truthy (oauthState s) = true ->
      strict_eq (Auth.state query) (oauthState s) = true ->
      truthy (Auth.code query) = false ->
     outcome r = Responded (Send 400 Auth.missing_code) /\ calls_made r = [])
  /\ (forall received stored : string,
        Auth.state query = JStr received -> oauthState s = JStr stored ->
        received <> stored ->
        (exists msg, outcome r = Responded (Send 400 msg))
        /\ forallb (fun c => negb (is_token_exchange c)) (calls_made r) = true
        /\ calls_made r = [])
  /\ NoDup [Auth.no_state; Auth.session_expired; Auth.invalid_state;
            Auth.missing_code].
Proof.
  destruct s as [stored token usr], query as [code received].
  intros r. subst r. unfold_handlers. cbn -[truthy strict_eq].
  split; [|split; [|split; [|split; [|split]]]].
  - intros H1. now rewrite H1.
  - intros H1 H2. rewrite H1. cbn -[truthy strict_eq]. now rewrite H2.
  - intros H1 H2 H3. rewrite H1. cbn -[truthy strict_eq]. rewrite H2.
    cbn -[truthy strict_eq]. now rewrite H3.
  - intros H1 H2 H3 H4. rewrite H1. cbn -[truthy strict_eq]. rewrite H2.
    cbn -[truthy strict_eq]. rewrite H3. cbn -[truthy strict_eq].
    now rewrite H4.
  - intros received' stored' -> -> Hne.
    destruct (truthy (JStr received')); cbn -[truthy strict_eq]; eauto.
    destruct (truthy (JStr stored')); cbn -[truthy strict_eq]; eauto.
    rewrite (strict_eq_strings _ _ Hne). cbn. eauto.
  - apply (bool_decide_unpack _). vm_compute. reflexivity.
Qed.

(** C3, at a callback whose state differs from the stored one in its last
    character. *)
Lemma callback_validation_order_witness :
  let query := {| Auth.code := JStr "c0de"; Auth.state := JStr "k3x8" |} in
  let r := Server.callback_route Samples.cfg Samples.provider query Samples.waiting in
  (truthy (Auth.state query) = true /\ truthy (oauthState Samples.waiting) = true
   /\ strict_eq (Auth.state query) (oauthState Samples.waiting) = false)
  /\ outcome r = Responded (Send 400 Auth.invalid_state) /\ calls_made r = [].
Proof.
  intros query r.
  split; [repeat split|].
  apply (proj1 (proj2 (proj2 (callback_validation_order
           Samples.cfg Samples.provider query Samples.waiting))));
    reflexivity.
Defined.

(** Every run of the callback route has one of the four shapes. *)
Lemma callback_route_shape (cfg : Server.Config) (remote : Remote)
    (query : Auth.Query) (s : Session) :
  callback_shape cfg query s (Server.callback_route cfg remote query s).
Proof.
  destruct s as [stored token usr], query as [code received].
  unfold_handlers. unfold await, lift, get_prop, token_call.
  split_cases;
    first [ eapply shape_rejected | eapply shape_no_token
          | eapply shape_no_identity | eapply shape_logged_in ];
    cbn; tauto.
Qed.

(** C1 (as the code has it): the callback clears the stored state only on its
    success path, where it sets it to [null]; every rejection and every
    failure leaves the stored state as it was. *)
Theorem callback_clears_state_on_success_only (cfg : Server.Config)
    (remote : Remote) (query : Auth.Query) (s : Session) :
  let r := Server.callback_route cfg remote query s in
  exists s', session_after r = Some s'
    /\ oauthState s' = (if logged_in (outcome r) then JNull else oauthState s).
Proof.
  intros r. subst r.
  destruct (callback_route_shape cfg remote query s); eexists; split;
    reflexivity.
Qed.

(** C1 fails as stated: a callback with a wrong state is rejected and leaves
    the stored state in the session, and so does one whose token exchange is
    refused after the state matched. *)
Lemma callback_rejection_keeps_state :
  let mismatch := {| Auth.code := JStr "c0de"; Auth.state := JStr "k3x8" |} in
  let matching := {| Auth.code := JStr "c0de"; Auth.state := JStr "k3x9" |} in
  let refused := Server.callback_route Samples.cfg (fun _ _ => Samples.refusal "Bad Request")
                   matching Samples.waiting in
  let rejected := Server.callback_route Samples.cfg Samples.provider mismatch
                    Samples.waiting in
  truthy (oauthState Samples.waiting) = true
  /\ outcome rejected = Responded (Send 400 Auth.invalid_state)
  /\ session_after rejected = Some Samples.waiting
  /\ outcome refused = Responded (Send 400 Auth.token_error)
  /\ session_after refused = Some Samples.waiting
  /\ oauthState Samples.waiting = JStr "k3x9".
Proof. repeat split. Qed.

Lemma get_prop_field (v : value) (k : string) :
  is_set v = true -> get_prop v k = inr (field v k).
Proof. unfold field. now destruct v. Qed.







(** C7: whatever the remote side does, the callback route answers, and with
    status 302 or 400, never 500; and an exception that leaves the [try] block
    of a validated callback, from any of its steps, becomes the 400 answer
    with the callback-error text. *)
Theorem callback_never_500 (cfg : Server.Config) (remote : Remote)
    (query : Auth.Query) (s : Session) :
  let r := Server.callback_route cfg remote query s in
  (exists resp, outcome r = Responded resp
     /\ (resp = Redirect Auth.dashboard \/ exists text, resp = Send 400 text)
     /\ http_status resp <> 500)
  /\ (forall e, validated query s = true ->
        outcome (exchange_run cfg remote query s) = Unhandled e ->
        outcome r = Responded (Send 400 Auth.callback_error)).
Proof.
  intros r. subst r. split.
  - destruct (callback_route_shape cfg remote query s);
      eexists; (split; [reflexivity|]); (split; [|discriminate]); eauto.
  - destruct s as [stored token usr], query as [code received].
    intros e Hvalid. unfold validated in Hvalid. cbn in Hvalid.
    apply andb_prop in Hvalid as [Hvalid Hcode].
    apply andb_prop in Hvalid as [Hvalid Heq].
    apply andb_prop in Hvalid as [Hreceived Hstored].
    unfold exchange_run, Server.callback_route, Auth.handleCallback, run, bind,
      try_catch, session_get, session_exists, respond, pure.
    cbn -[truthy strict_eq Auth.exchange].
    rewrite Hreceived. cbn -[truthy strict_eq Auth.exchange].
    rewrite Hstored. cbn -[truthy strict_eq Auth.exchange].
    rewrite Heq. cbn -[truthy strict_eq Auth.exchange].
    rewrite Hcode. cbn -[truthy strict_eq Auth.exchange].
    destruct (Auth.exchange remote _ _ _ code _) as [[a|resp|e'] st'];
      cbn; intros; congruence.
Qed.

(** C7, at a validated callback whose token call fails on the network. *)
Lemma callback_never_500_witness :
  let query := {| Auth.code := JStr "c0de"; Auth.state := JStr "k3x9" |} in
  let offline : Remote := fun _ _ => Rejected (JsError "FetchError" "ECONNREFUSED") in
  validated query Samples.waiting = true
  /\ outcome (exchange_run Samples.cfg offline query Samples.waiting)
     = Unhandled (JsError "FetchError" "ECONNREFUSED")
  /\ outcome (Server.callback_route Samples.cfg offline query Samples.waiting)
     = Responded (Send 400 Auth.callback_error).
Proof.
  intros query offline.
  split; [reflexivity|]. split; [reflexivity|].
  apply (proj2 (callback_never_500 Samples.cfg offline query Samples.waiting)
           (JsError "FetchError" "ECONNREFUSED")); reflexivity.
Defined.

(** [handleCallback] reads [req.session.oauthState] before its [try] block and
    before it tests [req.session]: on a request without a session object the
    exception leaves the handler.  The routes of [server.js] always run it
    behind the session middleware. *)
Lemma handleCallback_without_session (remote : Remote)
    (clientId clientSecret redirectUri : string) (query : Auth.Query) :
  exists e,
    outcome (run (Auth.handleCallback remote clientId clientSecret redirectUri query) None)
    = Unhandled e
    /\ exn_name e = "TypeError".
Proof. eexists. split; reflexivity. Qed.

Lemma dashboard_is_no_authUrl (clientId redirectUri state : string) :
  Auth.dashboard <> Auth.authUrl clientId redirectUri state.
Proof. discriminate. Qed.

(** C6: on a session that carries an access token, the login redirects to the
    dashboard, leaves the session as it is (no state is stored), issues no
    remote call, and its redirect is not one to the authorization endpoint. *)
Theorem login_reentry (cfg : Server.Config) (random36 : string)
    (save_error : option exn) (s : Session) :
  truthy (accessToken s) = true ->
  let r := Server.login_route cfg random36 save_error s in
  outcome r = Responded (Redirect Auth.dashboard)
  /\ session_after r = Some s
  /\ calls_made r = []
  /\ forall clientId redirectUri state,
       outcome r <> Responded (Redirect (Auth.authUrl clientId redirectUri state)).
Proof.
  intros Htoken r. subst r. unfold_handlers. cbn -[truthy].
  rewrite Htoken. cbn. repeat split. intros. discriminate.
Qed.

Lemma login_reentry_witness :
  let s := {| oauthState := JNull; accessToken := JStr "tok";
              user := JObj [("id", JStr "7")] |} in
  truthy (accessToken s) = true
  /\ session_after (Server.login_route Samples.cfg "0.zz" None s) = Some s.
Proof.
  intros s. split; [reflexivity|].
  apply (login_reentry Samples.cfg "0.zz" None s). reflexivity.
Defined.

(** The state that a login derives from a draw. *)
Lemma login_stores_draw (cfg : Server.Config) (random36 : string)
    (save_error : option exn) (s : Session) :
  truthy (accessToken s) = false ->
  session_after (Server.login_route cfg random36 save_error s)
  = Some (set_oauthState (JStr (Auth.substring_from 2 random36)) s).
Proof.
  intros Htoken. unfold_handlers. cbn -[truthy Auth.substring_from].
  rewrite Htoken. cbn -[Auth.substring_from]. now destruct save_error.
Qed.

Lemma base36_draw_inv (r : string) :
  base36_draw r = true ->
  (r = "0" /\ Auth.substring_from 2 r = "")
  \/ (exists ds, ds <> "" /\ r = String "0" (String "." ds)
                 /\ Auth.substring_from 2 r = ds).
Proof.
  unfold base36_draw.
  destruct r as [|c [|c' ds]]; try discriminate.
  - destruct (Ascii.ascii_dec c "0") as [->|Hc].
    + now left.
    + destruct c as [[] [] [] [] [] [] [] []]; try discriminate; now destruct Hc.
  - destruct (Ascii.ascii_dec c "0") as [->|Hc].
    + destruct (Ascii.ascii_dec c' ".") as [->|Hc'].
      * intros Hds. apply andb_prop in Hds as [Hds _]. right. exists ds.
        repeat split. intros ->. discriminate.
      * destruct c' as [[] [] [] [] [] [] [] []]; try discriminate;
          now destruct Hc'.
    + destruct c as [[] [] [] [] [] [] [] []]; try discriminate; now destruct Hc.
Qed.

(** C8 (as the code has it): on a session without access token the login
    stores, as a string, the draw [Math.random().toString(36)] without its
    first two characters, and touches nothing else of the session: the draw
    ["0"] stores the empty string and a draw ["0."] followed by digits stores
    those digits.  The stored state is empty exactly when the draw is 0, and
    two sequential logins store the same state exactly when their draws are
    the same. *)
Theorem login_state_follows_draw (cfg : Server.Config) (draw1 draw2 : string)
    (save1 save2 : option exn) (s : Session) :
  truthy (accessToken s) = false ->
  base36_draw draw1 = true -> base36_draw draw2 = true ->
  exists state1 state2 s1 s2,
    session_after (Server.login_route cfg draw1 save1 s) = Some s1
    /\ session_after (Server.login_route cfg draw2 save2 s1) = Some s2
    /\ oauthState s1 = JStr state1 /\ oauthState s2 = JStr state2
    /\ (draw1 = "0" /\ state1 = "" \/ draw1 = String "0" (String "." state1))
    /\ (draw2 = "0" /\ state2 = "" \/ draw2 = String "0" (String "." state2))
    /\ (accessToken s1 = accessToken s /\ user s1 = user s)
    /\ (accessToken s2 = accessToken s /\ user s2 = user s)
    /\ (state1 = "" <-> draw1 = "0")
    /\ (state1 = state2 <-> draw1 = draw2).
Proof.
  intros Htoken Hdraw1 Hdraw2.
  exists (Auth.substring_from 2 draw1), (Auth.substring_from 2 draw2).
  eexists. eexists.
  split; [now apply login_stores_draw|].
  split; [now apply login_stores_draw|].
  split; [reflexivity|]. split; [reflexivity|].
  destruct (base36_draw_inv _ Hdraw1) as [[-> ->]|(ds1 & Hne1 & -> & ->)];
    destruct (base36_draw_inv _ Hdraw2) as [[-> ->]|(ds2 & Hne2 & -> & ->)];
    cbn [set_oauthState accessToken user];
    repeat split; intros; try congruence; try discriminate; auto.
Qed.

Lemma login_state_follows_draw_witness :
  truthy (accessToken new_session) = false
  /\ base36_draw "0.k3x9" = true /\ base36_draw "0.8f0q2m" = true
  /\ exists s1 s2,
       session_after (Server.login_route Samples.cfg "0.k3x9" None new_session) = Some s1
       /\ session_after (Server.login_route Samples.cfg "0.8f0q2m" None s1) = Some s2
       /\ oauthState s1 = JStr "k3x9" /\ oauthState s2 = JStr "8f0q2m".
Proof.
  split; [reflexivity|]. split; [reflexivity|]. split; [reflexivity|].
  destruct (login_state_follows_draw Samples.cfg "0.k3x9" "0.8f0q2m" None None
              new_session eq_refl eq_refl eq_refl)
    as (state1 & state2 & s1 & s2 & Hs1 & Hs2 & Hstate1 & Hstate2
        & Hcut1 & Hcut2 & _).
  exists s1, s2. split; [exact Hs1|]. split; [exact Hs2|].
  destruct Hcut1 as [[Hzero _]|Hcut1]; [discriminate Hzero|].
  destruct Hcut2 as [[Hzero _]|Hcut2]; [discriminate Hzero|].
  injection Hcut1 as <-. injection Hcut2 as <-. now split.
Defined.

(** C8 fails as stated: when [Math.random()] returns 0 the login stores the
    empty string, and two sequential logins whose draws are equal store the
    same state. *)
Lemma login_state_empty_or_reused :
  let first := Server.login_route Samples.cfg "0" None new_session in
  let second := Server.login_route Samples.cfg "0.k3x9" None new_session in
  let third := Server.login_route Samples.cfg "0.k3x9" None Samples.waiting in
  base36_draw "0" = true /\ base36_draw "0.k3x9" = true
  /\ option_map oauthState (session_after first) = Some (JStr "")
  /\ session_after second = Some Samples.waiting
  /\ option_map oauthState (session_after second) = Some (JStr "k3x9")
  /\ option_map oauthState (session_after third) = Some (JStr "k3x9").
Proof. repeat split. Qed.

(** ** The permission bit *)

Lemma land_32 (n : Z) : Z.land n 32 = if Z.testbit n 5 then 32 else 0.
Proof.
  apply Z.bits_inj'. intros m Hm.
  rewrite Z.land_spec. change 32 with (2 ^ 5).
  rewrite Z.pow2_bits_eqb by lia.
  destruct (Z.eqb_spec 5 m) as [<-|Hne].
  - rewrite andb_true_r.
    destruct (Z.testbit n 5); [now rewrite Z.pow2_bits_eqb by lia|].
    now rewrite Z.bits_0.
  - rewrite andb_false_r.
    destruct (Z.testbit n 5); [|now rewrite Z.bits_0].
    rewrite Z.pow2_bits_eqb by lia. symmetry. now apply Z.eqb_neq.
Qed.

Lemma hasPermission_bit (n : Z) :
  Server.hasPermission n Server.MANAGE_GUILD_PERMISSION = Z.testbit n 5.
Proof.
  unfold Server.hasPermission, Server.MANAGE_GUILD_PERMISSION.
  rewrite land_32. now destruct (Z.testbit n 5).
Qed.

(** The callback of the filter returns bit 5 of the permissions of a guild
    that has permissions, and throws on any other guild. *)
Lemma has_manage_guild_convertible (guild : value) (n : Z) :
  permissions_of guild = Some n ->
  Server.has_manage_guild guild = inr (Z.testbit n 5).
Proof.
  unfold permissions_of, Server.has_manage_guild, field.
  destruct guild; try discriminate; cbn [get_prop];
    (destruct (BigInt (or_else _ _)) as [e|m]; [discriminate|]);
    intros [= ->]; cbn [BigInt]; now rewrite hasPermission_bit.
Qed.

Lemma has_manage_guild_throws (guild : value) :
  permissions_of guild = None ->
  exists e, Server.has_manage_guild guild = inl e.
Proof.
  unfold permissions_of, Server.has_manage_guild, field.
  destruct guild; cbn [get_prop]; try (intros _; eexists; reflexivity);
    (destruct (BigInt (or_else _ _)) as [e|m]; [|discriminate]);
    intros _; now exists e.
Qed.

Lemma has_manage_guild_returns (guild : value) (keep : bool) :
  Server.has_manage_guild guild = inr keep ->
  convertible guild = true /\ manage_server guild = keep.
Proof.
  unfold convertible, manage_server. intros Hkeep.
  destruct (permissions_of guild) as [n|] eqn:Hn.
  - rewrite (has_manage_guild_convertible _ _ Hn) in Hkeep.
    now injection Hkeep as <-.
  - destruct (has_manage_guild_throws _ Hn) as [e He]. congruence.
Qed.

Lemma convertible_is_set (guild : value) :
  convertible guild = true -> is_set guild = true.
Proof. now destruct guild. Qed.

(** ** The guild reconciliation *)

Section Reconciliation.

Variables (cfg : Server.Config) (remote : Remote).

Lemma getUserGuilds_answer (token : value) (st : State) :
  Discord.getUserGuilds remote token st
  = (completed (guilds_in (remote (List.length (calls st)) (GetUserGuilds token))),
     logged (GetUserGuilds token) st).
Proof.
  unfold Discord.getUserGuilds, guilds_in, bind, fetch, await, throw, pure, logged.
  destruct (remote _ _) as [[[] ? ? []]|]; reflexivity.
Qed.

Lemma getChannels_answer (bot : string) (id : value) (st : State) :
  Discord.getChannels remote bot id st
  = (completed (channels_in (remote (List.length (calls st)) (GetGuildChannels bot id))),
     logged (GetGuildChannels bot id) st).
Proof.
  unfold Discord.getChannels, channels_in, bind, fetch, await, throw, pure,
    lift, logged.
  destruct (remote _ _) as [[[] ? ? [v|]]|]; cbn; try reflexivity.
  now destruct (Discord.array_filter v Discord.is_text_channel).
Qed.

(** One probe: the guild is pushed exactly when its own call succeeds, the
    accumulator is otherwise untouched, and no exception leaves the turn. *)
Lemma probe_turn (guild : value)
    (validGuilds : list value) (st : State) :
  is_set guild = true ->
  Server.probe remote cfg guild validGuilds st
  = (Normal (if probe_succeeds cfg remote (List.length (calls st)) guild
             then validGuilds ++ [view_of guild] else validGuilds),
     logged (probe_call cfg guild) st).
Proof.
  intros Hset.
  unfold Server.probe, try_catch, bind, lift, probe_succeeds, probe_call, view_of,
    Server.guild_view.
  rewrite !(get_prop_field _ _ Hset). cbn [pure].
  rewrite getChannels_answer.
  destruct (channels_in _); reflexivity.
Qed.

Lemma probe_all_turns (guilds : list value) :
  forall (validGuilds : list value) (st : State),
  Forall (fun g => is_set g = true) guilds ->
  Server.probe_all remote cfg guilds validGuilds st
  = (Normal (validGuilds
             ++ map view_of (installed cfg remote (List.length (calls st)) guilds)),
     {| session := session st;
        calls := calls st ++ map (probe_call cfg) guilds |}).
Proof.
  induction guilds as [|guild rest IH]; intros validGuilds st Hset.
  - cbn. rewrite !app_nil_r. now destruct st.
  - inversion Hset as [|? ? Hguild Hrest]; subst.
    cbn [Server.probe_all]. unfold bind at 1.
    rewrite (probe_turn _ _ _ Hguild), IH by assumption.
    cbn [logged calls session installed map].
    rewrite length_app, Nat.add_1_r, <- app_assoc. cbn [app].
    destruct (probe_succeeds cfg remote _ guild); cbn [map];
      now rewrite <- ?app_assoc.
Qed.


(** When no callback throws, [filter] keeps the guilds with the
    manage-server permission, in their order. *)
Lemma filter_items_kept (gs kept : list value) :
  Discord.filter_items Server.has_manage_guild gs = inr kept ->
  kept = List.filter manage_server gs
  /\ Forall (fun g => convertible g = true) gs.
Proof.
  revert kept. induction gs as [|g rest IH]; intros kept; cbn.
  - intros [= <-]. now split.
  - destruct (Server.has_manage_guild g) as [e|keep] eqn:Hg; [discriminate|].
    destruct (Discord.filter_items _ rest) as [e|kept'] eqn:Hrest; [discriminate|].
    destruct (IH kept' eq_refl) as [-> Hset].
    destruct (has_manage_guild_returns _ _ Hg) as [Hconv ->].
    intros [= <-]. split.
    + now destruct (manage_server g).
    + now constructor.
Qed.



Lemma filter_sublist {A} (p : A -> bool) (l : list A) :
  sublist (List.filter p l) l.
Proof.
  induction l as [|x l IH]; cbn; [constructor|].
  destruct (p x); now constructor.
Qed.


Lemma Forall_filter_set (p : value -> bool) (l : list value) :
  Forall (fun g => convertible g = true) l ->
  Forall (fun g => is_set g = true) (List.filter p l).
Proof.
  induction 1 as [|x l Hx Hl IH]; cbn; [constructor|].
  destruct (p x); [constructor|]; auto using convertible_is_set.
Qed.







End Reconciliation.


Example guilds_sample :
  Server.guilds_route Samples.cfg Samples.discord Samples.authenticated =
  {| outcome := Responded (SendJson 200
       (JObj [("success", JBool true);
              ("guilds",
               JArr [JObj [("id", JStr "A"); ("name", JStr "guild A");
                           ("icon", JNull); ("owner", JBool false)];
                     JObj [("id", JStr "D"); ("name", JStr "guild D");
                           ("icon", JNull); ("owner", JBool false)]])]));
     session_after := Some Samples.authenticated;
     calls_made := [GetUserGuilds (JStr "tok");
                    GetGuildChannels "bot" (JStr "A");
                    GetGuildChannels "bot" (JStr "C");
                    GetGuildChannels "bot" (JStr "D")] |}.
Proof. vm_compute. reflexivity. Qed.





(** ** The permission test *)

(** C5: the filter excludes permissions "8", includes "32" and includes
    "4294967328"; the test is the value of bit 5 of the whole number denoted
    by the permissions string, of whatever size, so that bits added above
    bit 5 (beyond 32 bits or not) never change it. *)
Theorem manage_server_bit_exact :
  Server.has_manage_guild (guild_with (JStr "8")) = inr false
  /\ Server.has_manage_guild (guild_with (JStr "32")) = inr true
  /\ Server.has_manage_guild (guild_with (JStr "4294967328")) = inr true
  /\ BigInt (JStr "4294967328") = inr (2 ^ 32 + 32)
  /\ (forall n : Z,
        Server.hasPermission n Server.MANAGE_GUILD_PERMISSION = Z.testbit n 5)
  /\ (forall (s : string) (n : Z),
        string_to_bigint s = Some n ->
        Server.has_manage_guild (guild_with (JStr s)) = inr (Z.testbit n 5))
  /\ (forall n high : Z,
        Server.hasPermission (n + 64 * high) Server.MANAGE_GUILD_PERMISSION
        = Server.hasPermission n Server.MANAGE_GUILD_PERMISSION).
Proof.
  split; [reflexivity|]. split; [reflexivity|]. split; [reflexivity|].
  split; [reflexivity|]. split; [exact hasPermission_bit|]. split.
  - intros s n Hs.
    unfold Server.has_manage_guild, guild_with, or_else.
    cbn [get_prop lookup_field String.eqb Ascii.eqb Bool.eqb truthy].
    destruct (String.eqb_spec s "") as [->|Hne]; cbn [negb].
    + cbn in Hs. injection Hs as <-. reflexivity.
    + cbn [BigInt]. rewrite Hs. cbn [BigInt]. now rewrite hasPermission_bit.
  - intros n high. rewrite !hasPermission_bit.
    rewrite !Z.testbit_eqb by lia.
    change (2 ^ 5) with 32.
    replace ((n + 64 * high) / 32) with (n / 32 + high * 2)
      by (rewrite <- (Z.div_add n (high * 2) 32) by lia; f_equal; lia).
    now rewrite Z.mod_add by lia.
Qed.

Lemma manage_server_bit_exact_witness :
  string_to_bigint "4294967328" = Some (2 ^ 32 + 32)
  /\ Server.has_manage_guild (guild_with (JStr "4294967328"))
     = inr (Z.testbit (2 ^ 32 + 32) 5).
Proof.
  split; [reflexivity|].
  apply (proj1 (proj2 (proj2 (proj2 (proj2 (proj2 manage_server_bit_exact)))))).
  reflexivity.
Defined.



(** * Further properties *)

(** Permissions that are no plain decimal string: digits after a no-break
    space, and Numbers beyond 2^53 alone and inside an array, where the
    conversion goes through the digits that [String] writes. *)
Example has_manage_guild_unusual_permissions :
  Server.has_manage_guild (guild_with (JStr (String "194" (String "160" "32"))))
  = inr true
  /\ Server.has_manage_guild (guild_with (JNum (2 ^ 62))) = inr false
  /\ Server.has_manage_guild (guild_with (JArr [JNum (2 ^ 62)])) = inr true
  /\ Server.has_manage_guild (guild_with (JArr [JStr "a"; JStr "b"]))
     = inl (SyntaxError "Cannot convert a,b to a BigInt").
Proof. vm_compute. repeat split. Qed.

(** ** Login and callback together *)

Lemma validated_true (query : Auth.Query) (s : Session) :
  validated query s = true ->
  truthy (Auth.state query) = true /\ truthy (oauthState s) = true
  /\ strict_eq (Auth.state query) (oauthState s) = true
  /\ truthy (Auth.code query) = true.
Proof.
  unfold validated. intros H.
  apply andb_prop in H as [H Hcode]. apply andb_prop in H as [H Heq].
  apply andb_prop in H as [Hstate Hstored]. now repeat split.
Qed.

(** The [try] block starts with the token exchange. *)
Lemma exchange_first_call (remote : Remote) (clientId clientSecret redirectUri : string)
    (code : value) (st : State) :
  exists rest,
    calls (snd (Auth.exchange remote clientId clientSecret redirectUri code st))
    = calls st ++ PostToken clientId clientSecret code redirectUri :: rest.
Proof.
  destruct st as [[s|] log];
    unfold Auth.exchange, bind, fetch, session_set, respond, await, lift,
      get_prop, pure, throw;
    split_cases; rewrite <- ?app_assoc; eexists; reflexivity.
Qed.

(** A callback reaches the provider exactly when its validation passes: it
    carries a state and a code, and the state is the string that the session
    stores.  A callback that does not pass is answered 400 and leaves the
    session as it was. *)
Theorem callback_contacts_provider_iff_validated (cfg : Server.Config)
    (remote : Remote) (query : Auth.Query) (s : Session) :
  let r := Server.callback_route cfg remote query s in
  (validated query s = true ->
     exists rest, calls_made r = token_call cfg query :: rest)
  /\ (validated query s = false ->
      calls_made r = [] /\ session_after r = Some s
      /\ exists text, outcome r = Responded (Send 400 text)
           /\ In text [Auth.no_state; Auth.session_expired; Auth.invalid_state;
                       Auth.missing_code]).
Proof.
  destruct s as [stored token usr], query as [code received].
  intros r. subst r. split.
  - intros Hvalid. apply validated_true in Hvalid as (H1 & H2 & H3 & H4).
    cbn in H1, H2, H3, H4.
    unfold Server.callback_route, Auth.handleCallback, run, bind, try_catch,
      session_get, session_exists, respond, pure, token_call.
    cbn -[truthy strict_eq Auth.exchange].
    rewrite H1. cbn -[truthy strict_eq Auth.exchange].
    rewrite H2. cbn -[truthy strict_eq Auth.exchange].
    rewrite H3. cbn -[truthy strict_eq Auth.exchange].
    rewrite H4. cbn -[truthy strict_eq Auth.exchange].
    match goal with
    | |- context [Auth.exchange ?a ?b ?c ?d ?e ?st] =>
        destruct (exchange_first_call a b c d e st) as [rest Hrest];
        destruct (Auth.exchange a b c d e st) as [[x|resp|e'] st']
    end; cbn in Hrest |- *; eauto.
  - unfold validated. cbn [Auth.state Auth.code oauthState].
    unfold_handlers. cbn -[truthy strict_eq].
    destruct (truthy received); cbn -[truthy strict_eq];
      [|intros _; repeat split; eexists; split; [reflexivity|cbn; tauto]].
    destruct (truthy stored); cbn -[truthy strict_eq];
      [|intros _; repeat split; eexists; split; [reflexivity|cbn; tauto]].
    destruct (strict_eq received stored); cbn -[truthy strict_eq];
      [|intros _; repeat split; eexists; split; [reflexivity|cbn; tauto]].
    destruct (truthy code); cbn -[truthy strict_eq]; [discriminate|].
    intros _; repeat split; eexists; split; [reflexivity|cbn; tauto].
Qed.

Lemma callback_contacts_provider_iff_validated_witness :
  let query := {| Auth.code := JStr "c0de"; Auth.state := JStr "k3x9" |} in
  validated query Samples.waiting = true
  /\ exists rest,
       calls_made (Server.callback_route Samples.cfg Samples.provider query
                     Samples.waiting)
       = token_call Samples.cfg query :: rest.
Proof.
  intros query. split; [reflexivity|].
  apply (proj1 (callback_contacts_provider_iff_validated Samples.cfg
                  Samples.provider query Samples.waiting)).
  reflexivity.
Defined.

(** A callback on a session whose stored state is not truthy is turned away
    before any remote call, whatever it carries. *)
Lemma callback_without_stored_state (cfg : Server.Config) (remote : Remote)
    (query : Auth.Query) (s : Session) :
  truthy (oauthState s) = false ->
  let r := Server.callback_route cfg remote query s in
  calls_made r = [] /\ session_after r = Some s
  /\ (outcome r = Responded (Send 400 Auth.no_state)
      \/ outcome r = Responded (Send 400 Auth.session_expired)).
Proof.
  destruct s as [stored token usr], query as [code received].
  cbn [oauthState]. intros Hstored.
  unfold_handlers. cbn -[truthy strict_eq].
  destruct (truthy received); cbn -[truthy strict_eq]; [|now auto].
  rewrite Hstored. cbn. now auto.
Qed.



(** When [Math.random()] returns 0 the login stores the empty state, and no
    callback can complete the login it started: every callback on the
    resulting session is turned away with status 400 before any remote call,
    as a missing state or an expired session. *)
Theorem zero_draw_login_cannot_complete (cfg : Server.Config) (remote : Remote)
    (save_error : option exn) (query : Auth.Query) (s : Session) :
  truthy (accessToken s) = false ->
  exists s1,
    session_after (Server.login_route cfg "0" save_error s) = Some s1
    /\ oauthState s1 = JStr ""
    /\ let r := Server.callback_route cfg remote query s1 in
       calls_made r = [] /\ session_after r = Some s1
       /\ (outcome r = Responded (Send 400 Auth.no_state)
           \/ outcome r = Responded (Send 400 Auth.session_expired)).
Proof.
  intros Htoken. exists (set_oauthState (JStr "") s).
  split; [now apply (login_stores_draw cfg "0")|]. split; [reflexivity|].
  now apply callback_without_stored_state.
Qed.

Lemma zero_draw_login_cannot_complete_witness :
  truthy (accessToken new_session) = false
  /\ exists s1,
       session_after (Server.login_route Samples.cfg "0" None new_session) = Some s1
       /\ oauthState s1 = JStr ""
       /\ let r := Server.callback_route Samples.cfg Samples.provider
                     {| Auth.code := JStr "c0de"; Auth.state := JStr "" |} s1 in
          calls_made r = [] /\ session_after r = Some s1
          /\ (outcome r = Responded (Send 400 Auth.no_state)
              \/ outcome r = Responded (Send 400 Auth.session_expired)).
Proof.
  split; [reflexivity|].
  apply (zero_draw_login_cannot_complete Samples.cfg Samples.provider None
           {| Auth.code := JStr "c0de"; Auth.state := JStr "" |} new_session).
  reflexivity.
Defined.

(** A state is consumed by the callback that logs in: on the session that a
    successful callback leaves, every further callback, with the same state or
    any other, is turned away with status 400 before any remote call, and the
    session keeps its access token and user. *)
Theorem callback_replay_rejected (cfg : Server.Config) (remote again : Remote)
    (query replay : Auth.Query) (s s1 : Session) :
  logged_in (outcome (Server.callback_route cfg remote query s)) = true ->
  session_after (Server.callback_route cfg remote query s) = Some s1 ->
  let r := Server.callback_route cfg again replay s1 in
  calls_made r = [] /\ session_after r = Some s1
  /\ (outcome r = Responded (Send 400 Auth.no_state)
      \/ outcome r = Responded (Send 400 Auth.session_expired)).
Proof.
  intros Hlogged Hafter.
  apply callback_without_stored_state.
  destruct (callback_route_shape cfg remote query s);
    cbn in Hlogged, Hafter; try discriminate.
  now injection Hafter as <-.
Qed.

Lemma callback_replay_rejected_witness :
  let query := {| Auth.code := JStr "c0de"; Auth.state := JStr "k3x9" |} in
  let first := Server.callback_route Samples.cfg Samples.provider query Samples.waiting in
  logged_in (outcome first) = true
  /\ exists s1, session_after first = Some s1
       /\ outcome (Server.callback_route Samples.cfg Samples.provider query s1)
          = Responded (Send 400 Auth.session_expired).
Proof.
  intros query first. split; [reflexivity|].
  eexists. split; [reflexivity|].
  destruct (callback_replay_rejected Samples.cfg Samples.provider Samples.provider
              query query Samples.waiting _ eq_refl eq_refl) as (_ & _ & [H|H]).
  - discriminate H.
  - exact H.
Defined.

(** ** The /guilds route on every answer of the remote side *)

Section GuildsRoute.

Variables (cfg : Server.Config) (remote : Remote).

Lemma filter_items_set (gs kept : list value) :
  Discord.filter_items Server.has_manage_guild gs = inr kept ->
  sublist kept gs /\ Forall (fun g => is_set g = true) kept.
Proof.
  intros Hfiltered.
  destruct (filter_items_kept _ _ Hfiltered) as [-> Hconv].
  split; [apply filter_sublist|now apply Forall_filter_set].
Qed.

(** On an authenticated session the route leaves the session alone, answers
    200 or 500, asks for the guild list with the user's token and then only
    probes guilds of the list it was given. *)
Lemma guilds_route_authenticated (s : Session) :
  truthy (accessToken s) = true ->
  exists resp probed,
    sublist probed (fetched_guilds remote s)
    /\ (http_status resp = 200 \/ http_status resp = 500)
    /\ Server.guilds_route cfg remote s
       = {| outcome := Responded resp;
            session_after := Some s;
            calls_made := GetUserGuilds (accessToken s)
                          :: map (probe_call cfg) probed |}.
Proof.
  intros Htoken. unfold fetched_guilds.
  unfold Server.guilds_route, Server.guilds, Server.requireAuth, run.
  unfold bind at 1. unfold session_get at 1. cbn [session].
  rewrite Htoken. cbn [negb].
  unfold try_catch, bind at 1. unfold session_get at 1. cbn [session].
  unfold bind at 1. rewrite getUserGuilds_answer. cbn [calls List.length].
  destruct (guilds_in _) as [e|v]; cbn [completed].
  { eexists _, []. split; [constructor|]. split; [|reflexivity]. cbn; auto. }
  destruct v as [| |b|n|str|gs|fs];
    try (unfold bind, lift, pure, throw, respond, get_prop,
           Discord.array_filter;
         split_cases;
         eexists _, []; (split; [apply sublist_nil_l|]);
         (split; [|reflexivity]); cbn; auto).
  destruct gs as [|g gs'].
  { eexists _, []. split; [constructor|]. split; [|reflexivity]. cbn; auto. }
  unfold bind at 1. cbn [get_prop lift pure String.eqb Ascii.eqb Bool.eqb].
  replace (strict_eq _ (JNum 0)) with false
    by (cbn; symmetry; apply Z.eqb_neq; lia).
  unfold bind at 1. cbn [Discord.array_filter].
  destruct (Discord.filter_items _ _) as [e|kept] eqn:Hfiltered; cbn [lift pure throw].
  { eexists _, []. split; [apply sublist_nil_l|]. split; [|reflexivity].
    cbn; auto. }
  destruct (filter_items_set _ _ Hfiltered) as [Hsub Hset].
  destruct kept as [|k kept'].
  { eexists _, []. split; [apply sublist_nil_l|]. split; [|reflexivity].
    cbn; auto. }
  cbn [List.length Nat.eqb].
  unfold bind at 1. rewrite probe_all_turns by assumption.
  cbn [logged calls session app List.length].
  destruct (installed cfg remote 1 (k :: kept')) as [|v found];
    eexists _, (k :: kept'); (split; [assumption|]);
    (split; [|reflexivity]); cbn; auto.
Qed.


End GuildsRoute.




(** ** Decimal digits *)

Lemma of_lu_rev_digit (d : Decimal.uint) (k : N) (digit : Decimal.uint -> Decimal.uint) :
  DecimalPos.Unsigned.of_lu (digit Decimal.Nil) = k ->
  (forall d', Decimal.revapp (digit d') Decimal.Nil
              = Decimal.revapp d' (digit Decimal.Nil)) ->
  DecimalPos.Unsigned.of_lu (Decimal.rev (digit d))
  = (DecimalPos.Unsigned.of_lu (Decimal.rev d)
     + k * 10 ^ DecimalPos.Unsigned.usize d)%N.
Proof.
  intros Hk Hrev. unfold Decimal.rev at 1. rewrite Hrev.
  now rewrite DecimalPos.Unsigned.of_lu_revapp, Hk.
Qed.

Ltac read_digit IH d acc :=
  match goal with
  | |- context [digit_value 10 ?c] =>
      let v := eval vm_compute in (digit_value 10 c) in
      change (digit_value 10 c) with v
  end;
  cbv iota beta;
  match goal with
  | |- context [(10 * Z.of_N acc + ?k)%Z] =>
      replace (10 * Z.of_N acc + k)%Z with (Z.of_N (10 * acc + Z.to_N k)) by lia
  end;
  rewrite IH;
  erewrite (of_lu_rev_digit d) by (reflexivity || (intros; reflexivity));
  rewrite N.pow_succ_r';
  cbn [Z.to_N DecimalPos.Unsigned.of_lu].

(** Reading the digits of a decimal numeral, followed by something that ends
    the number, continues the value read so far. *)
Lemma scan_digits_uint (d : Decimal.uint) (junk : string) :
  ends_number junk = true ->
  forall acc : N,
  Num.scan_digits 10 (Z.of_N acc)
    (DecimalString.NilEmpty.string_of_uint d +:+ junk)
  = Z.of_N (acc * 10 ^ DecimalPos.Unsigned.usize d
            + DecimalPos.Unsigned.of_lu (Decimal.rev d)).
Proof.
  intros Hjunk.
  induction d; intros acc;
    cbn [DecimalString.NilEmpty.string_of_uint DecimalPos.Unsigned.usize].
  1:{ change (DecimalPos.Unsigned.of_lu (Decimal.rev Decimal.Nil)) with 0%N.
      rewrite N.pow_0_r, N.mul_1_r, N.add_0_r.
      destruct junk as [|c rest]; [reflexivity|].
      unfold ends_number in Hjunk.
      change (Num.scan_digits 10 (Z.of_N acc) (String c rest) = Z.of_N acc).
      cbn [Num.scan_digits].
      now destruct (digit_value 10 c). }
  all: change (String ?c ?s +:+ ?j) with (String c (s +:+ j));
    cbn [Num.scan_digits]; read_digit IHd d acc; f_equal; ring.
Qed.


Lemma to_uint_value (n : N) :
  DecimalPos.Unsigned.of_lu (Decimal.rev (N.to_uint n)) = n.
Proof.
  rewrite <- DecimalPos.Unsigned.of_uint_alt.
  exact (DecimalN.Unsigned.of_to n).
Qed.

Lemma decimal_digits (n : N) :
  decimal n = DecimalString.NilEmpty.string_of_uint (N.to_uint n)
  /\ N.to_uint n <> Decimal.Nil.
Proof.
  assert (Hnil : N.to_uint n <> Decimal.Nil).
  { destruct n; [cbv; discriminate|]. apply DecimalPos.Unsigned.to_uint_nonnil. }
  split; [|exact Hnil]. unfold decimal, DecimalString.NilZero.string_of_uint.
  now destruct (N.to_uint n).
Qed.






(** ** parseInt *)

Lemma append_cons (c : ascii) (s junk : string) :
  String c s +:+ junk = String c (s +:+ junk).
Proof. reflexivity. Qed.

Lemma append_empty (s : string) : s +:+ "" = s.
Proof. induction s as [|c s IH]; [reflexivity|]. now rewrite append_cons, IH. Qed.

Lemma ends_number_inv (junk : string) :
  ends_number junk = true ->
  junk = "" \/ exists c rest, junk = String c rest
                /\ digit_value 10 c = None /\ c <> "x"%char /\ c <> "X"%char.
Proof.
  destruct junk as [|c rest]; [now left|]. cbn [ends_number]. intros H. right.
  exists c, rest. split; [reflexivity|].
  destruct (digit_value 10 c); [discriminate|]. split; [reflexivity|].
  apply negb_true_iff, orb_false_iff in H as [Hx HX].
  split; intros ->; discriminate.
Qed.

(** [parseInt] reads a decimal numeral, and ignores what follows it. *)
Lemma parseInt_uint (d : Decimal.uint) (junk : string) :
  d <> Decimal.Nil -> ends_number junk = true ->
  Num.parseInt (DecimalString.NilEmpty.string_of_uint d +:+ junk)
  = Num.to_number (Z.of_N (DecimalPos.Unsigned.of_lu (Decimal.rev d))).
Proof.
  intros Hnil Hjunk.
  pose proof (scan_digits_uint d junk Hjunk 0) as Hscan.
  rewrite N.mul_0_l, N.add_0_l in Hscan. rewrite <- Hscan. clear Hscan.
  destruct d as [|d|d|d|d|d|d|d|d|d|d]; [easy|..];
    cbn [DecimalString.NilEmpty.string_of_uint]; rewrite append_cons;
    try reflexivity.
  destruct d; cbn [DecimalString.NilEmpty.string_of_uint];
    rewrite ?append_cons; try reflexivity.
  destruct (ends_number_inv _ Hjunk) as [->|(c & rest & -> & Hdigit & Hx & HX)];
    [reflexivity|].
  change ("" +:+ String c rest) with (String c rest).
  destruct c as [[] [] [] [] [] [] [] []];
    try reflexivity; try discriminate Hdigit; congruence.
Qed.

Lemma parseInt_decimal (n : N) (junk : string) :
  ends_number junk = true ->
  Num.parseInt (decimal n +:+ junk) = Num.to_number (Z.of_N n).
Proof.
  intros Hjunk. destruct (decimal_digits n) as [-> Hnil].
  now rewrite parseInt_uint, to_uint_value.
Qed.

Lemma parseInt_negative_decimal (n : N) (junk : string) :
  ends_number junk = true ->
  Num.parseInt (String "-" (decimal n +:+ junk)) = Num.to_number (- Z.of_N n).
Proof.
  intros Hjunk.
  destruct (decimal_digits n) as [-> Hnil].
  pose proof (scan_digits_uint (N.to_uint n) junk Hjunk 0) as Hscan.
  rewrite N.mul_0_l, N.add_0_l, to_uint_value in Hscan. rewrite <- Hscan.
  clear Hscan.
  destruct (N.to_uint n) as [|d|d|d|d|d|d|d|d|d|d]; [easy|..];
    cbn [DecimalString.NilEmpty.string_of_uint]; rewrite append_cons;
    try reflexivity.
  destruct d; cbn [DecimalString.NilEmpty.string_of_uint];
    rewrite ?append_cons; try reflexivity.
  destruct (ends_number_inv _ Hjunk) as [->|(c & rest & -> & Hdigit & Hx & HX)];
    [reflexivity|].
  change ("" +:+ String c rest) with (String c rest).
  destruct c as [[] [] [] [] [] [] [] []];
    try reflexivity; try discriminate Hdigit; congruence.
Qed.

(** ** The routes that relay messages *)

Ltac unfold_relay :=
  unfold Server.relay, Server.messages, Server.send_message,
    Messages.getMessages, Messages.sendMessage, Messages.try_catch_T,
    Messages.bind_T, Messages.fetch_T, Messages.await_T, Messages.lift_T,
    Messages.respond_T, Messages.throw_T, Messages.unit_T in *.

Lemma behind_requireAuth_passes (s : Session) (handler : Messages.T unit) :
  truthy (accessToken s) = true ->
  Server.behind_requireAuth s handler = Server.relay handler.
Proof.
  intros Htoken.
  unfold Server.behind_requireAuth, Server.requireAuth, run, bind, session_get,
    respond, pure.
  cbn -[truthy]. now rewrite Htoken.
Qed.

Lemma behind_requireAuth_blocks (s : Session) (handler : Messages.T unit) :
  truthy (accessToken s) = false ->
  Server.behind_requireAuth s handler
  = {| Server.reply := Responded (Redirect "/"); Server.sent := [] |}.
Proof.
  intros Htoken.
  unfold Server.behind_requireAuth, Server.requireAuth, run, bind, session_get,
    respond, pure.
  cbn -[truthy]. now rewrite Htoken.
Qed.

Lemma messages_relay (cfg : Server.Config) (remote : Messages.MessageRemote)
    (channelId : string) (limit : option Num.qs_value) :
  exists resp,
    Server.relay (Server.messages remote cfg channelId limit)
    = {| Server.reply := Responded resp;
         Server.sent :=
           [Messages.GetMessages (Server.BOT_TOKEN cfg) (JStr channelId)
              (Num.number_or (Num.parseInt (Num.query_string limit))
                 (Num.Int 10))] |}
    /\ (resp = messages_failed
        \/ exists messages,
             resp = SendJson 200 (JObj [("success", JBool true);
                                        ("messages", messages)])).
Proof.
  unfold_relay. cbn [app].
  destruct (remote _) as [[[[] ? ? [v|]] ?]|]; cbn;
    eexists; (split; [reflexivity|]); eauto.
Qed.




Lemma to_number_exact (n : Z) :
  Z.abs n <= 2 ^ 53 -> Num.to_number n = Num.Int n.
Proof.
  intros Hn. unfold Num.to_number.
  now destruct (Z.leb_spec (Z.abs n) (2 ^ 53)); [|lia].
Qed.

Lemma messages_sent_limit (cfg : Server.Config) (remote : Messages.MessageRemote)
    (channelId : string) (limit : option Num.qs_value) (s : Session) (n : Z) :
  truthy (accessToken s) = true ->
  Num.parseInt (Num.query_string limit) = Num.Int n -> n <> 0 ->
  Server.sent (Server.messages_route cfg remote channelId limit s)
  = [Messages.GetMessages (Server.BOT_TOKEN cfg) (JStr channelId) (Num.Int n)].
Proof.
  intros Htoken Hparsed Hn.
  unfold Server.messages_route. rewrite (behind_requireAuth_passes _ _ Htoken).
  destruct (messages_relay cfg remote channelId limit) as (resp & -> & _).
  cbn [Server.sent]. rewrite Hparsed. unfold Num.number_or. cbn.
  now destruct (Z.eqb_spec n 0).
Qed.

(** The limit of the query is read as [parseInt] reads it: a positive decimal
    number up to 2^53 is the limit sent, whatever follows its digits; a minus
    sign before it sends the negative limit, which is not clamped; and of a
    repeated limit parameter the first value is the one sent. *)
Theorem messages_limit_parsed (cfg : Server.Config)
    (remote : Messages.MessageRemote) (channelId : string) (s : Session)
    (n : N) (junk : string) (more : list Num.qs_value) :
  truthy (accessToken s) = true ->
  (0 < n <= 2 ^ 53)%N -> ends_number junk = true ->
  let asks limit sent_limit :=
    Server.sent (Server.messages_route cfg remote channelId (Some limit) s)
    = [Messages.GetMessages (Server.BOT_TOKEN cfg) (JStr channelId)
         (Num.Int sent_limit)] in
  asks (Num.QStr (decimal n +:+ junk)) (Z.of_N n)
  /\ asks (Num.QStr (String "-" (decimal n +:+ junk))) (- Z.of_N n)
  /\ asks (Num.QArr (Num.QStr (decimal n) :: more)) (Z.of_N n).
Proof.
  intros Htoken Hn Hjunk asks. subst asks. cbv beta.
  assert (Hbound : Z.abs (Z.of_N n) <= 2 ^ 53).
  { change (2 ^ 53) with (Z.of_N (2 ^ 53)). lia. }
  split; [|split]; apply messages_sent_limit; try assumption; try lia;
    cbn [Num.query_string Num.to_string].
  - rewrite parseInt_decimal by assumption. now apply to_number_exact.
  - rewrite parseInt_negative_decimal by assumption. apply to_number_exact. lia.
  - destruct more as [|x more]; cbn [map String.concat Num.to_string].
    + rewrite <- (append_empty (decimal n)).
      rewrite parseInt_decimal by reflexivity. now apply to_number_exact.
    + rewrite parseInt_decimal by reflexivity. now apply to_number_exact.
Qed.

Lemma messages_limit_parsed_witness :
  truthy (accessToken Samples.authenticated) = true
  /\ (0 < 25 <= 2 ^ 53)%N /\ ends_number "abc" = true
  /\ Server.sent (Server.messages_route Samples.cfg
                    (fun _ => Rejected (JsError "FetchError" "ECONNREFUSED"))
                    "77" (Some (Num.QStr (decimal 25 +:+ "abc")))
                    Samples.authenticated)
     = [Messages.GetMessages "bot" (JStr "77") (Num.Int 25)].
Proof.
  split; [reflexivity|]. split; [lia|]. split; [reflexivity|].
  apply (messages_limit_parsed Samples.cfg
           (fun _ => Rejected (JsError "FetchError" "ECONNREFUSED"))
           "77" Samples.authenticated 25 "abc" []);
    [reflexivity|lia|reflexivity].
Defined.





(** ** The /channels and /me routes *)

Lemma filter_text_channels (all chans : list value) :
  Discord.filter_items Discord.is_text_channel all = inr chans ->
  chans = List.filter text_channel all.
Proof.
  revert chans. induction all as [|c rest IH]; intros chans; cbn.
  - now intros [= <-].
  - unfold Discord.is_text_channel at 1, text_channel at 1, field.
    destruct (get_prop c "type") as [e|t]; [discriminate|].
    destruct (Discord.filter_items _ rest) as [e|kept]; [discriminate|].
    rewrite (IH kept eq_refl). intros [= <-].
    now destruct (strict_eq t (JNum 0)).
Qed.

Lemma text_channel_type (channel : value) :
  text_channel channel = true <-> field channel "type" = JNum 0.
Proof.
  unfold text_channel. split.
  - destruct (field channel "type"); try discriminate. cbn.
    intros H. apply Z.eqb_eq in H. now subst.
  - now intros ->.
Qed.

Lemma channels_route_run (cfg : Server.Config) (remote : Remote)
    (guildId : string) (s : Session) :
  truthy (accessToken s) = true ->
  Server.channels_route cfg remote guildId s
  = {| outcome :=
         Responded
           match channels_in (remote 0%nat
                   (GetGuildChannels (Server.BOT_TOKEN cfg) (JStr guildId))) with
           | inr chans => SendJson 200 (JObj [("success", JBool true);
                                              ("channels", JArr chans)])
           | inl _ => channels_failed
           end;
       session_after := Some s;
       calls_made := [GetGuildChannels (Server.BOT_TOKEN cfg) (JStr guildId)] |}.
Proof.
  intros Htoken.
  unfold Server.channels_route, Server.channels, Server.requireAuth, run.
  unfold bind at 1. unfold session_get at 1. cbn [session].
  rewrite Htoken. cbn [negb].
  unfold try_catch, bind at 1. rewrite getChannels_answer.
  cbn [calls List.length logged session app].
  now destruct (channels_in _).
Qed.

(** The /channels route asks Discord once, with the bot token, for the
    channels of the guild of the path, and leaves the session alone.  It
    answers either status 500 with a fixed body or status 200 with, of the
    array that Discord delivered, exactly the channels whose type is the
    number 0, in their order. *)
Theorem channels_route_lists_text_channels (cfg : Server.Config)
    (remote : Remote) (guildId : string) (s : Session) :
  truthy (accessToken s) = true ->
  let r := Server.channels_route cfg remote guildId s in
  let call := GetGuildChannels (Server.BOT_TOKEN cfg) (JStr guildId) in
  calls_made r = [call] /\ session_after r = Some s
  /\ (outcome r = Responded channels_failed
      \/ exists resp items,
           remote 0%nat call = Resolved resp /\ ok resp = true
           /\ json resp = Resolved (JArr items)
           /\ outcome r
              = Responded (SendJson 200
                  (JObj [("success", JBool true);
                         ("channels", JArr (List.filter text_channel items))]))
           /\ Forall (fun c => field c "type" = JNum 0)
                (List.filter text_channel items)).
Proof.
  intros Htoken r call. subst r call.
  rewrite (channels_route_run cfg remote guildId s Htoken).
  cbn [calls_made session_after outcome].
  split; [reflexivity|]. split; [reflexivity|].
  unfold channels_in.
  destruct (remote _ _) as [[[] st tx [v|e]]|e]; cbn; try now left.
  destruct v as [| |b|n|str|items|fs]; cbn; try now left.
  destruct (Discord.filter_items _ items) as [e|chans] eqn:Hfilter;
    [now left|].
  right. rewrite (filter_text_channels _ _ Hfilter).
  eexists _, items. repeat split.
  apply List.Forall_forall. intros c Hc. apply filter_In in Hc as [_ Hc].
  now apply text_channel_type.
Qed.

Lemma channels_route_lists_text_channels_witness :
  truthy (accessToken Samples.authenticated) = true
  /\ calls_made (Server.channels_route Samples.cfg Samples.discord "A"
                   Samples.authenticated)
     = [GetGuildChannels "bot" (JStr "A")].
Proof.
  split; [reflexivity|].
  apply (channels_route_lists_text_channels Samples.cfg Samples.discord "A"
           Samples.authenticated eq_refl).
Defined.

Lemma me_route_run (remote : Remote) (s : Session) :
  truthy (accessToken s) = true ->
  Server.me_route remote s
  = {| outcome :=
         Responded
           match remote 0%nat (GetIdentity (accessToken s)) with
           | Resolved resp =>
               if ok resp then
                 match json resp with
                 | Resolved profile =>
                     SendJson 200 (JObj [("success", JBool true);
                                         ("user", profile)])
                 | Rejected _ => me_failed
                 end
               else me_failed
           | Rejected _ => me_failed
           end;
       session_after := Some s;
       calls_made := [GetIdentity (accessToken s)] |}.
Proof.
  intros Htoken.
  unfold Server.me_route, Server.me, Server.requireAuth, Discord.getUserInfo, run.
  unfold bind at 1. unfold session_get at 1. cbn [session].
  rewrite Htoken. cbn [negb].
  unfold try_catch, bind, session_get, fetch, await, throw, pure, respond.
  cbn [session calls List.length app].
  now destruct (remote _ _) as [[[] st tx [v|e]]|e].
Qed.



(** ** Who counts as logged in *)

Lemma login_short_circuit (cfg : Server.Config) (draw : string)
    (save_error : option exn) (s : Session) :
  truthy (accessToken s) = true ->
  Server.login_route cfg draw save_error s
  = {| outcome := Responded (Redirect Auth.dashboard);
       session_after := Some s; calls_made := [] |}.
Proof.
  intros Htoken. unfold_handlers. cbn -[truthy]. now rewrite Htoken.
Qed.

Lemma login_starts (cfg : Server.Config) (draw : string)
    (save_error : option exn) (s : Session) :
  truthy (accessToken s) = false ->
  outcome (Server.login_route cfg draw save_error s)
  <> Responded (Redirect Auth.dashboard).
Proof.
  intros Htoken. unfold_handlers. cbn -[truthy Auth.authUrl Auth.substring_from].
  rewrite Htoken. destruct save_error; cbn -[Auth.authUrl Auth.substring_from].
  - discriminate.
  - intros [= H]; now apply dashboard_is_no_authUrl in H.
Qed.

Lemma send_message_replies (cfg : Server.Config)
    (remote : Messages.MessageRemote) (body : Server.MessageBody) :
  exists resp,
    Server.reply (Server.relay (Server.send_message remote cfg body))
    = Responded resp
    /\ (http_status resp = 200 \/ http_status resp = 400
        \/ http_status resp = 500).
Proof.
  destruct body as [channelId message]. unfold_relay.
  cbn [Server.channelId Server.message app].
  destruct (negb (truthy channelId) || negb (truthy message)); cbn;
    [eexists; split; [reflexivity|cbn; auto]|].
  destruct (remote _) as [[[[] ? [|] [v|]] ?]|]; cbn;
    try (eexists; split; [reflexivity|cbn; auto]).
  all: destruct (get_prop v "id"); cbn;
    eexists; (split; [reflexivity|cbn; auto]).
Qed.

(** Authentication is the truthiness of the session's access token and
    nothing else.  Without it, each of the five protected routes answers with
    the redirect to the landing page, issues no remote call and leaves the
    session as it is, [/] serves the landing page and [/login] does not go to
    the dashboard.  With it, [/login] and [/] redirect to the dashboard and no
    protected route redirects to the landing page, whatever [user] and
    [oauthState] hold. *)
Theorem access_gate (cfg : Server.Config) (remote : Remote)
    (relayed : Messages.MessageRemote) (guildId channelId draw : string)
    (limit : option Num.qs_value) (body : Server.MessageBody)
    (save_error : option exn) (s : Session) :
  let turned_away_relay :=
    {| Server.reply := Responded (Redirect "/"); Server.sent := [] |} in
  (truthy (accessToken s) = false ->
     Server.me_route remote s = turned_away s
     /\ Server.guilds_route cfg remote s = turned_away s
     /\ Server.channels_route cfg remote guildId s = turned_away s
     /\ Server.messages_route cfg relayed channelId limit s = turned_away_relay
     /\ Server.send_message_route cfg relayed body s = turned_away_relay
     /\ Server.root s = inr "public/index.html"
     /\ outcome (Server.login_route cfg draw save_error s)
        <> Responded (Redirect Auth.dashboard))
  /\ (truthy (accessToken s) = true ->
      outcome (Server.me_route remote s) <> Responded (Redirect "/")
      /\ outcome (Server.guilds_route cfg remote s) <> Responded (Redirect "/")
      /\ outcome (Server.channels_route cfg remote guildId s)
         <> Responded (Redirect "/")
      /\ Server.reply (Server.messages_route cfg relayed channelId limit s)
         <> Responded (Redirect "/")
      /\ Server.reply (Server.send_message_route cfg relayed body s)
         <> Responded (Redirect "/")
      /\ Server.root s = inl (Redirect Auth.dashboard)
      /\ outcome (Server.login_route cfg draw save_error s)
         = Responded (Redirect Auth.dashboard)).
Proof.
  intros turned_away_relay. subst turned_away_relay. split; intros Htoken.
  - unfold Server.messages_route, Server.send_message_route.
    rewrite !(behind_requireAuth_blocks _ _ Htoken).
    repeat split; try (now apply login_starts);
      try (unfold Server.root; now rewrite Htoken);
      unfold Server.me_route, Server.guilds_route, Server.channels_route,
        Server.me, Server.guilds, Server.channels, Server.requireAuth, run,
        turned_away;
      unfold bind at 1; unfold session_get at 1; cbn [session];
      now rewrite Htoken.
  - rewrite (me_route_run remote s Htoken),
      (channels_route_run cfg remote guildId s Htoken),
      (login_short_circuit cfg draw save_error s Htoken).
    unfold Server.messages_route, Server.send_message_route.
    rewrite !(behind_requireAuth_passes _ _ Htoken).
    destruct (guilds_route_authenticated cfg remote s Htoken)
      as (resp & probed & _ & Hstatus & ->).
    destruct (messages_relay cfg relayed channelId limit)
      as (mresp & -> & Hmresp).
    destruct (send_message_replies cfg relayed body) as (sresp & -> & Hsresp).
    cbn [outcome Server.reply].
    repeat split; try discriminate.
    + destruct (remote _ _) as [[[] ? ? []]|]; discriminate.
    + intros [= ->]. cbn in Hstatus. lia.
    + destruct (channels_in _); discriminate.
    + intros [= ->]. destruct Hmresp as [H|[? H]]; discriminate H.
    + intros [= ->]. cbn in Hsresp. lia.
    + unfold Server.root. now rewrite Htoken.
Qed.

Lemma access_gate_witness :
  truthy (accessToken new_session) = false
  /\ Server.guilds_route Samples.cfg Samples.discord new_session
     = turned_away new_session.
Proof.
  split; [reflexivity|].
  apply (proj1 (access_gate Samples.cfg Samples.discord
                  (fun _ => Rejected (JsError "FetchError" "ECONNREFUSED"))
                  "A" "77" "0.k3x9" None
                  {| Server.channelId := JStr "77"; Server.message := JStr "hi" |}
                  None new_session)).
  reflexivity.
Defined.

(** A callback that fails after the token exchange leaves a logged-in
    session behind its "Login failed" answer: when the identity call was made
    with a truthy token and the callback did not succeed, the session that it
    leaves holds that token, so that [/login] and [/] go to the dashboard and
    the /guilds route serves the request with that token instead of turning
    it away. *)
Theorem failed_identity_fetch_leaves_session_authenticated
    (cfg : Server.Config) (remote later : Remote) (query : Auth.Query)
    (s s1 : Session) (token : value) (draw : string) (save_error : option exn) :
  session_after (Server.callback_route cfg remote query s) = Some s1 ->
  logged_in (outcome (Server.callback_route cfg remote query s)) = false ->
  In (GetIdentity token) (calls_made (Server.callback_route cfg remote query s)) ->
  truthy token = true ->
  (exists text, outcome (Server.callback_route cfg remote query s)
                = Responded (Send 400 text))
  /\ accessToken s1 = token
  /\ outcome (Server.login_route cfg draw save_error s1)
     = Responded (Redirect Auth.dashboard)
  /\ Server.root s1 = inl (Redirect Auth.dashboard)
  /\ exists resp probes,
       Server.guilds_route cfg later s1
       = {| outcome := Responded resp; session_after := Some s1;
            calls_made := GetUserGuilds token :: probes |}
       /\ resp <> Redirect "/".
Proof.
  intros Hafter Hfailed Hcall Htoken.
  assert (Hs1 : accessToken s1 = token /\
                exists text, outcome (Server.callback_route cfg remote query s)
                             = Responded (Send 400 text)).
  { destruct (callback_route_shape cfg remote query s);
      cbn in Hafter, Hfailed, Hcall |- *; try discriminate.
    - destruct Hcall.
    - destruct Hcall as [Hc|[]]. discriminate Hc.
    - injection Hafter as <-. destruct Hcall as [Hc|[Hc|[]]]; [discriminate Hc|].
      injection Hc as ->. split; [reflexivity|eauto]. }
  destruct Hs1 as [Htok Hout]. subst token.
  split; [exact Hout|]. split; [reflexivity|].
  split; [now rewrite login_short_circuit|].
  split; [unfold Server.root; now rewrite Htoken|].
  destruct (guilds_route_authenticated cfg later s1 Htoken)
    as (resp & probed & _ & Hstatus & ->).
  exists resp, (map (probe_call cfg) probed). split; [reflexivity|].
  intros ->. cbn in Hstatus. lia.
Qed.

Lemma failed_identity_fetch_leaves_session_authenticated_witness :
  let query := {| Auth.code := JStr "c0de"; Auth.state := JStr "k3x9" |} in
  let r := Server.callback_route Samples.cfg Samples.provider_without_identity
             query Samples.waiting in
  outcome r = Responded (Send 400 Auth.user_fetch_error)
  /\ exists s1, session_after r = Some s1
       /\ outcome (Server.login_route Samples.cfg "0.zz" None s1)
          = Responded (Redirect Auth.dashboard).
Proof.
  intros query r. split; [reflexivity|].
  eexists. split; [reflexivity|].
  apply (failed_identity_fetch_leaves_session_authenticated Samples.cfg
           Samples.provider_without_identity Samples.discord query
           Samples.waiting _ (JStr "tok") "0.zz" None eq_refl eq_refl).
  - right. left. reflexivity.
  - reflexivity.
Defined.

(** ** encodeURIComponent *)

Lemma encode_char (c : ascii) (s : string) :
  Auth.encodeURIComponent (String c s)
  = (Auth.encodeURIComponent (String c "") +:+ Auth.encodeURIComponent s).
Proof. cbn [Auth.encodeURIComponent]. now destruct (Auth.unreserved c). Qed.

Lemma decode_encoded_char (c : ascii) (rest : string) :
  percent_decode (Auth.encodeURIComponent (String c "") +:+ rest)
  = String c (percent_decode rest).
Proof. destruct c as [[] [] [] [] [] [] [] []]; reflexivity. Qed.

(** Percent-decoding gives back what [encodeURIComponent] was given, so two
    different strings are never encoded alike. *)
Theorem encodeURIComponent_round_trip (s : string) :
  percent_decode (Auth.encodeURIComponent s) = s
  /\ forall s', Auth.encodeURIComponent s = Auth.encodeURIComponent s' -> s = s'.
Proof.
  assert (Hdecode : forall t, percent_decode (Auth.encodeURIComponent t) = t).
  { induction t as [|c t IH]; [reflexivity|].
    now rewrite encode_char, decode_encoded_char, IH. }
  split; [apply Hdecode|].
  intros s' Hsame. now rewrite <- (Hdecode s), Hsame, Hdecode.
Qed.

Lemma encoded_char_safe (c : ascii) :
  all_chars url_safe (Auth.encodeURIComponent (String c "")) = true
  /\ (Auth.unreserved c = true -> Auth.encodeURIComponent (String c "") = String c "").
Proof.
  destruct c as [[] [] [] [] [] [] [] []]; vm_compute;
    (split; [reflexivity|]); congruence.
Qed.

Lemma all_chars_append (p : ascii -> bool) (a b : string) :
  all_chars p (a +:+ b) = all_chars p a && all_chars p b.
Proof.
  induction a as [|c a IH]; [reflexivity|].
  rewrite append_cons. cbn [all_chars]. now rewrite IH, andb_assoc.
Qed.

Lemma url_safe_excludes (c : ascii) :
  url_safe c = true ->
  ~ In c ["&"; "="; "?"; "#"; "/"; ":"; "+"; " "; ","; ";"; "@"; "$"]%char.
Proof.
  intros Hsafe Hin. cbn in Hin.
  repeat (destruct Hin as [<-|Hin]; [discriminate Hsafe|]). exact Hin.
Qed.

(** What [encodeURIComponent] returns consists of unreserved characters and
    percent signs only, so that none of the characters that delimit a URL or
    its query ([&], [=], [?], [#], [/], [:], [+], space) is in it, and a
    string of unreserved characters is returned as it is. *)
Theorem encodeURIComponent_alphabet (s : string) :
  all_chars url_safe (Auth.encodeURIComponent s) = true
  /\ (forall c, url_safe c = true ->
        ~ In c ["&"; "="; "?"; "#"; "/"; ":"; "+"; " "; ","; ";"; "@"; "$"]%char)
  /\ (all_chars Auth.unreserved s = true -> Auth.encodeURIComponent s = s).
Proof.
  split; [|split; [exact url_safe_excludes|]].
  - induction s as [|c s IH]; [reflexivity|].
    rewrite encode_char, all_chars_append, IH.
    now rewrite (proj1 (encoded_char_safe c)).
  - induction s as [|c s IH]; [reflexivity|].
    cbn [all_chars]. intros Hs. apply andb_prop in Hs as [Hc Hs].
    rewrite encode_char, (IH Hs).
    now rewrite (proj2 (encoded_char_safe c) Hc).
Qed.

Lemma encodeURIComponent_alphabet_witness :
  all_chars Auth.unreserved "identify" = true
  /\ Auth.encodeURIComponent "identify" = "identify".
Proof.
  split; [reflexivity|].
  apply (proj2 (proj2 (encodeURIComponent_alphabet "identify"))).
  reflexivity.
Defined.

Lemma encodeURIComponent_round_trip_witness :
  Auth.encodeURIComponent "http://localhost:3000/callback"
  = Auth.encodeURIComponent (percent_decode "http%3A%2F%2Flocalhost%3A3000%2Fcallback")
  /\ "http://localhost:3000/callback"
     = percent_decode "http%3A%2F%2Flocalhost%3A3000%2Fcallback".
Proof.
  split; [reflexivity|].
  apply (proj2 (encodeURIComponent_round_trip "http://localhost:3000/callback")).
  reflexivity.
Defined.


Example parseInt_samples :
  Num.parseInt "0x1f" = Num.Int 31
  /\ Num.parseInt " -12px" = Num.Int (-12)
  /\ Num.parseInt "" = Num.NaN
  /\ Num.parseInt "undefined" = Num.NaN
  /\ Num.parseInt (String (ascii_of_nat 194) (String (ascii_of_nat 160) "7"))
     = Num.Int 7
  /\ Num.parseInt "99999999999999999999" = Num.Huge false
  /\ Num.query_string (Some (Num.QArr [Num.QStr "5"; Num.QStr "7"])) = "5,7".
Proof. repeat split. Qed.
